(** * PreprocessedDataset (trainer/dataset.py): a shallow embedding

    The Python class [PreprocessedDataset] reads a manifest
    ([captions.csv]), encodes every image once with a VAE encoder, keeps the
    encoded rows in memory or on disk, and serves [(caption, latent, mask)]
    triples.  This file embeds the class method by method:

    - Python exceptions are values of [exn]; a computation is a function
      from the world (file system, torch's random generator, a log of
      resource events) to a result and a new world, so that writes made
      before a failure stay visible after it;
    - the injected objects ([pipe], [vae_encoder], the latent distribution
      returned by [encode]) are records of their methods;
    - the libraries the source calls but does not define (torch numerics,
      PIL, numpy, the repository's own [BucketManager]) are the fields of
      the classes [Numeric] and [Libs];
    - strings are [string], sequences of 8-bit codes; on ASCII text
      ([str_isascii]) a [string] and a Python [str] are the same sequence
      of characters and [str_lower] is [str.lower], so what is stated about
      the text of a caption is stated for ASCII captions and maps;
      [Series.str.replace] is the literal (non-regex) replacement of
      pandas 2;
    - tensors carry dtype, shape, row-major data and [requires_grad]; the
      device tag is left out, no operation of the class depends on it. *)

From Stdlib Require Import ZArith List String Ascii Bool Lia.
From stdpp Require Import base option list strings gmap pretty.

Open Scope string_scope.
Open Scope list_scope.
Open Scope Z_scope.

(** ** Python exceptions and results *)

Inductive exn : Type :=
| AssertionError
| AttributeError (name : string)
| IndexError
| KeyError
| TypeError
| ValueError
| RuntimeError
| FileNotFoundError (path : string)
| UnidentifiedImageError
| UnpicklingError
| ParserError.

Inductive result (A : Type) : Type :=
| Ok (a : A)
| Err (e : exn).
Arguments Ok {A} a.
Arguments Err {A} e.

Definition is_ok {A} (r : result A) : bool :=
  match r with Ok _ => true | Err _ => false end.

(** A Python attribute that an instance may or may not carry. *)
Inductive attr (A : Type) : Type :=
| Unset
| Bound (a : A).
Arguments Unset {A}.
Arguments Bound {A} a.

Definition getattr_r {A} (name : string) (x : attr A) : result A :=
  match x with
  | Unset => Err (AttributeError name)
  | Bound a => Ok a
  end.

(** ** The state-and-exception monad

    [M S A]: run on a state, give a result and the state reached.  The state
    is returned on failure too. *)

Definition M (S A : Type) : Type := S -> result A * S.

Definition ret {S A} (a : A) : M S A := fun s => (Ok a, s).
Definition raise {S A} (e : exn) : M S A := fun s => (Err e, s).
Definition lift {S A} (r : result A) : M S A := fun s => (r, s).
Definition bind {S A B} (m : M S A) (k : A -> M S B) : M S B :=
  fun s => match m s with
           | (Ok a, s') => k a s'
           | (Err e, s') => (Err e, s')
           end.
Definition gets {S A} (f : S -> A) : M S A := fun s => (Ok (f s), s).
Definition modify {S} (f : S -> S) : M S unit := fun s => (Ok tt, f s).

Declare Scope py_scope.
Delimit Scope py_scope with py.
Notation "x <- m ;; k" := (bind m (fun x => k))
  (at level 100, m at next level, right associativity) : py_scope.
Notation "'let*' p := m 'in' k" := (bind m (fun x => let 'p := x in k))
  (at level 100, p pattern, m at next level, right associativity) : py_scope.
Notation "m ;;; k" := (bind m (fun _ => k))
  (at level 100, right associativity) : py_scope.

(** [for x in xs: acc = body(x, acc)] *)
Fixpoint for_each {S A B} (xs : list A) (body : A -> B -> M S B) (acc : B) : M S B :=
  match xs with
  | [] => ret acc
  | x :: xs' => bind (body x acc) (fun acc' => for_each xs' body acc')
  end.

(** [assert c] *)
Definition py_assert {S} (c : bool) : M S unit :=
  if c then ret tt else raise AssertionError.

(** ** Python containers *)

(** [l[i]] on a Python list or tuple: negative indices count from the end. *)
Definition py_index {A} (l : list A) (i : Z) : result A :=
  let n := Z.of_nat (length l) in
  let j := if i <? 0 then i + n else i in
  if (0 <=? j) && (j <? n) then
    match nth_error l (Z.to_nat j) with
    | Some a => Ok a
    | None => Err IndexError
    end
  else Err IndexError.

(** [s[i]] on a pandas Series with the default RangeIndex: an integer key
    is a label, so anything outside [0..len-1] is a KeyError. *)
Definition series_get {A} (s : list A) (i : Z) : result A :=
  if (0 <=? i) && (i <? Z.of_nat (length s)) then
    match nth_error s (Z.to_nat i) with
    | Some a => Ok a
    | None => Err KeyError
    end
  else Err KeyError.

(** [range(n)] *)
Definition py_range (n : nat) : list Z := map Z.of_nat (seq 0 n).

(** ** Strings *)

(** Lower-casing of an ASCII character: [A] to [Z] go to [a] to [z], every
    other ASCII character stays.  Codes from 128 on are outside ASCII:
    Python's lower-casing follows the Unicode tables there, which are not
    embedded, and such codes are passed through. *)
Definition ascii_lower (c : ascii) : ascii :=
  let n := nat_of_ascii c in
  if (Nat.leb 65 n && Nat.leb n 90)%bool then ascii_of_nat (n + 32)%nat else c.

(** [str.lower] on ASCII text (see [str_isascii]). *)
Fixpoint str_lower (s : string) : string :=
  match s with
  | EmptyString => EmptyString
  | String c s' => String (ascii_lower c) (str_lower s')
  end.

(** A code below 128. *)
Definition ascii_is7bit (c : ascii) : bool :=
  match c with
  | Ascii _ _ _ _ _ _ _ b7 => negb b7
  end.

(** [str.isascii]: the text on which a [string] and a Python [str] are the
    same sequence of characters, and [str_lower] is [str.lower]. *)
Fixpoint str_isascii (s : string) : bool :=
  match s with
  | EmptyString => true
  | String c s' => ascii_is7bit c && str_isascii s'
  end.

(** [str.replace(old, new)] for a non-empty [old]: scan left to right,
    replace each occurrence found and resume after it.  [skip] counts the
    characters of the occurrence still to be dropped. *)
Fixpoint replace_go (old new : string) (skip : nat) (s : string) : string :=
  match s with
  | EmptyString => EmptyString
  | String c s' =>
      match skip with
      | S k => replace_go old new k s'
      | O =>
          if String.prefix old s
          then new +:+ replace_go old new (String.length old - 1)%nat s'
          else String c (replace_go old new 0 s')
      end
  end.

(** With an empty [old], Python puts [new] before every character and at the
    end. *)
Fixpoint replace_empty (new : string) (s : string) : string :=
  match s with
  | EmptyString => new
  | String c s' => new +:+ String c (replace_empty new s')
  end.

Definition str_replace (old new s : string) : string :=
  match old with
  | EmptyString => replace_empty new s
  | _ => replace_go old new 0 s
  end.

Definition startswith_sep (s : string) : bool :=
  match s with
  | String "/" _ => true
  | _ => false
  end.

Fixpoint endswith_sep (s : string) : bool :=
  match s with
  | EmptyString => false
  | String c EmptyString => if Ascii.eqb c "/" then true else false
  | String _ s' => endswith_sep s'
  end.

(** [os.path.join(a, b)] (posixpath) *)
Definition os_path_join (a b : string) : string :=
  if startswith_sep b then b
  else match a with
       | EmptyString => b
       | _ => if endswith_sep a then a +:+ b else a +:+ "/" +:+ b
       end.

(** ** Tensors *)

Inductive dtype : Type := Float16 | BFloat16 | Float32 | Float64 | UInt8.

(** What torch and numpy do on single elements. *)
Class Numeric : Type := {
  scalar : Type;
  s_one : scalar;
  s_mul : scalar -> scalar -> scalar;
  s_div : scalar -> scalar -> scalar;
  (** a uint8 read as a float *)
  s_of_N : N -> scalar;
  (** rounding to the precision of a dtype *)
  s_cast : dtype -> scalar -> scalar
}.

Section Tensors.
Context `{Numeric}.

Record Tensor : Type := mkTensor {
  t_dtype : dtype;
  t_shape : list nat;
  t_data : list scalar;
  t_requires_grad : bool
}.

Definition numel (shape : list nat) : nat := fold_right Nat.mul 1%nat shape.

(** [t.to(dtype=d)] *)
Definition to_dtype (d : dtype) (t : Tensor) : Tensor :=
  mkTensor d (t_shape t) (map (s_cast d) (t_data t)) (t_requires_grad t).

(** [t.float()] *)
Definition to_float (t : Tensor) : Tensor := to_dtype Float32 t.

(** [torch.ones_like(t, dtype=d)] *)
Definition ones_like (t : Tensor) (d : dtype) : Tensor :=
  mkTensor d (t_shape t) (repeat s_one (numel (t_shape t))) false.

(** [t * c] for a Python number [c] *)
Definition mul_scalar (t : Tensor) (c : scalar) : Tensor :=
  mkTensor (t_dtype t) (t_shape t) (map (fun x => s_mul x c) (t_data t))
           (t_requires_grad t).

Definition squeeze_shape (shape : list nat) : list nat :=
  List.filter (fun n => negb (Nat.eqb n 1)) shape.

(** [t.squeeze()]: every dimension of size one goes; the data stay. *)
Definition squeeze (t : Tensor) : Tensor :=
  mkTensor (t_dtype t) (squeeze_shape (t_shape t)) (t_data t) (t_requires_grad t).

(** [t.unsqueeze(0)] *)
Definition unsqueeze0 (t : Tensor) : Tensor :=
  mkTensor (t_dtype t) (1%nat :: t_shape t) (t_data t) (t_requires_grad t).

(** [t.detach()] *)
Definition detach (t : Tensor) : Tensor :=
  mkTensor (t_dtype t) (t_shape t) (t_data t) false.

(** [t.repeat(1, c, 1, 1)]: a shape of fewer than four dimensions is
    padded with ones on the left, then the second dimension is copied [c]
    times; torch raises on a tensor of more than four dimensions. *)
Definition repeat_channels (t : Tensor) (c : nat) : result Tensor :=
  match repeat 1%nat (4 - length (t_shape t)) ++ t_shape t with
  | [n0; n1; h; w] =>
      Ok (mkTensor (t_dtype t) [n0; (c * n1)%nat; h; w]
            (concat (map (fun chunk => concat (repeat chunk c))
                         (reshape (repeat (n1 * h * w)%nat n0) (t_data t))))
            (t_requires_grad t))
  | _ => Err RuntimeError
  end.

Definition shape_eqb (a b : list nat) : bool :=
  bool_decide (a = b).

(** [torch.cat(ts, dim=0)] on tensors: the list is not empty, every tensor
    has a first dimension, and the other dimensions agree.  The result
    takes the dtype of the first tensor (the lists built by the class hold
    tensors of one dtype). *)
Definition cat0 (ts : list Tensor) : result Tensor :=
  match ts with
  | [] => Err RuntimeError
  | t :: _ =>
      match t_shape t with
      | [] => Err RuntimeError
      | _ :: rest =>
          if forallb (fun u => match t_shape u with
                               | [] => false
                               | _ :: r => shape_eqb r rest
                               end) ts
          then Ok (mkTensor (t_dtype t)
                     (fold_right (fun u n => (hd 0%nat (t_shape u) + n)%nat) 0%nat ts :: rest)
                     (concat (map t_data ts))
                     (existsb t_requires_grad ts))
          else Err RuntimeError
      end
  end.

(** The last-but-[k] entry of a shape tuple, [shape[-(k+1)]]. *)
Definition shape_from_end (shape : list nat) (k : Z) : result nat :=
  py_index shape (- (k + 1)).

End Tensors.

(** ** Libraries and injected objects *)

(** The library code the class calls: torch's global random generator and
    [interpolate], PIL images, numpy's view of an image, and the
    repository's [utils.aspect_ratio_bucketing.BucketManager], which is
    not part of the source under study. *)
Class Libs `{Numeric} : Type := {
  Generator : Type;
  PILImage : Type;
  (** [img.convert(mode)] *)
  pil_convert : string -> PILImage -> PILImage;
  (** [img.resize((w, h), resample=Image.BICUBIC, reducing_gap=1)] *)
  pil_resize : PILImage -> nat -> nat -> PILImage;
  (** [img.size], a [(width, height)] pair *)
  pil_size : PILImage -> nat * nat;
  (** [np.array(img)]: shape and uint8 entries *)
  np_array : PILImage -> list nat * list N;
  (** [torch.nn.functional.interpolate(t, size=(h, w), mode="nearest")] *)
  interpolate_nearest : Tensor -> nat -> nat -> Tensor;
  BucketManager : Type;
  (** [BucketManager(aspect_ratios=..., bsz=..., debug=True)] *)
  BucketManager_new : gmap Z (nat * nat) -> Z -> BucketManager;
  (** [bm.get_batch()]: indices and a resolution; the manager moves on *)
  bm_get_batch : BucketManager -> result (list Z * (nat * nat)) * BucketManager;
  (** whatever object a tokenizer attribute holds *)
  Tokenizer : Type
}.

Section Model.
Context `{Libs}.

(** [vae_encoder.encode(x).latent_dist]: an object with [sample()], which
    draws from the global generator. *)
Record LatentDist : Type := mkDist {
  dist_sample : Generator -> Tensor * Generator
}.

Record VaeEncoder : Type := mkEncoder {
  enc_dtype : dtype;
  (** [vae_encoder.config.scaling_factor] *)
  enc_scaling_factor : scalar;
  enc_encode : Tensor -> LatentDist
}.

Record Pipe : Type := mkPipe {
  (** [pipe.image_processor.preprocess] *)
  image_processor_preprocess : PILImage -> Tensor
}.

(** One row of [captions.csv], which has the columns [image_path] and
    [caption]; an empty caption or mask cell is read as NaN ([None]). *)
Record Row : Type := mkRow {
  row_image_path : string;
  row_caption : option string;
  row_mask_path : option string
}.

(** The frame read from the manifest.  [df_mask_column] says whether the
    file has a [mask_path] column; without it the [row_mask_path] cells do
    not exist. *)
Record DataFrame : Type := mkFrame {
  df_rows : list Row;
  df_mask_column : bool
}.

(** What [torch.save] pickles. *)
Inductive Obj : Type :=
| ODist (d : LatentDist)
| OTensor (t : Tensor).

Inductive File : Type :=
| FCsv (df : DataFrame)
| FImage (img : PILImage)
| FPickle (o : Obj).

(** Resource events of the encoder, oldest first. *)
Inductive event : Type :=
| EncoderBound          (* self.vae_encoder = vae_encoder *)
| EncoderCalled         (* self.vae_encoder.encode(...) *)
| EncoderDeleted        (* del self.vae_encoder *)
| CudaCacheEmptied.     (* torch.cuda.empty_cache() *)

Record World : Type := mkWorld {
  w_fs : gmap string File;
  w_rng : Generator;
  w_events : list event
}.

Definition Py (A : Type) : Type := M World A.

Definition log_event (e : event) : Py unit :=
  modify (fun w => mkWorld (w_fs w) (w_rng w) (w_events w ++ [e])).

(** [pd.read_csv(path, dtype={"caption": str})] *)
Definition pd_read_csv (path : string) : Py DataFrame :=
  fun w => match w_fs w !! path with
           | None => (Err (FileNotFoundError path), w)
           | Some (FCsv df) => (Ok df, w)
           | Some _ => (Err ParserError, w)
           end.

(** [PIL.Image.open(path)] *)
Definition Image_open (path : string) : Py PILImage :=
  fun w => match w_fs w !! path with
           | None => (Err (FileNotFoundError path), w)
           | Some (FImage img) => (Ok img, w)
           | Some _ => (Err UnidentifiedImageError, w)
           end.

(** [torch.save(o, path)] *)
Definition torch_save (o : Obj) (path : string) : Py unit :=
  modify (fun w => mkWorld (<[path := FPickle o]> (w_fs w)) (w_rng w) (w_events w)).

(** [torch.load(path)] *)
Definition torch_load (path : string) : Py Obj :=
  fun w => match w_fs w !! path with
           | None => (Err (FileNotFoundError path), w)
           | Some (FPickle o) => (Ok o, w)
           | Some _ => (Err UnpicklingError, w)
           end.

(** [d.sample()] *)
Definition sample (d : LatentDist) : Py Tensor :=
  fun w => let '(t, g) := dist_sample d (w_rng w) in
           (Ok t, mkWorld (w_fs w) g (w_events w)).

(** [o.sample()] on a loaded object *)
Definition obj_sample (o : Obj) : Py Tensor :=
  match o with
  | ODist d => sample d
  | OTensor _ => raise (AttributeError "sample")
  end.

(** [o.detach()] on a loaded object *)
Definition obj_detach (o : Obj) : result Tensor :=
  match o with
  | OTensor t => Ok (detach t)
  | ODist _ => Err (AttributeError "detach")
  end.

(** [enc.encode(x).latent_dist] *)
Definition encode (enc : VaeEncoder) (x : Tensor) : Py LatentDist :=
  (log_event EncoderCalled ;;; ret (enc_encode enc x))%py.

(** ** The module-level helpers *)

Definition prepare_image (pil_image : PILImage) (w h : nat) (pipe : Pipe) : Tensor :=
  let pil_image := pil_resize pil_image w h in
  let image := image_processor_preprocess pipe pil_image in
  image.

Definition prepare_mask (pil_image : PILImage) (w h : nat) : Tensor :=
  let pil_image := pil_resize pil_image w h in
  let '(shape, bytes) := np_array (pil_convert "L" pil_image) in
  (* arr.astype(np.float32) / 255.0 *)
  let arr := map (fun b => s_div (s_cast Float32 (s_of_N b)) (s_of_N 255%N)) bytes in
  (* np.expand_dims(arr, 0), then torch.from_numpy(arr).unsqueeze(0) *)
  let shape := (1 :: shape)%nat in
  let image := unsqueeze0 (mkTensor Float32 shape arr false) in
  image.

(** ** The class *)

Record InitArgs : Type := mkArgs {
  a_data_dir : string;
  a_pipe : Pipe;
  a_vae_encoder : VaeEncoder;
  a_size : list nat;
  a_text_dropout : scalar;
  a_aspect_ratio_bucketing : bool;
  a_train_batch_size : option Z;
  (** a dict, in insertion order *)
  a_substitute_caption_map : list (string * string)
}.

(** The instance attributes.  [self_mask_path], [self_vae_latents],
    [self_masks] and [self_bucket_manager] can hold Python's [None];
    [self_vae_encoder] is deleted by [__init__]; [self_tokenizer_2] is read
    by [get_aspect_ratio_bucketed_batch] and assigned nowhere in the class. *)
Record Dataset : Type := mkDataset {
  self_data_dir : string;
  self_csv_path : string;
  self_data : DataFrame;
  self_captions : list string;
  self_image_path : list string;
  self_mask_path : option (list (option string));
  self_pipe : Pipe;
  self_vae_encoder : attr VaeEncoder;
  self_vae_scaling_factor : scalar;
  self_text_dropout : scalar;
  self_size : list nat;
  self_do_cache : bool;
  self_vae_latents : option (list LatentDist);
  self_masks : option (list Tensor);
  self_bucket_manager : option BucketManager;
  self_tokenizer_2 : attr (option Tokenizer)
}.

Definition set_cache (self : Dataset) (lat : option (list LatentDist))
    (msk : option (list Tensor)) : Dataset :=
  mkDataset (self_data_dir self) (self_csv_path self) (self_data self)
    (self_captions self) (self_image_path self) (self_mask_path self)
    (self_pipe self) (self_vae_encoder self) (self_vae_scaling_factor self)
    (self_text_dropout self) (self_size self) (self_do_cache self)
    lat msk (self_bucket_manager self) (self_tokenizer_2 self).

Definition del_vae_encoder (self : Dataset) : Dataset :=
  mkDataset (self_data_dir self) (self_csv_path self) (self_data self)
    (self_captions self) (self_image_path self) (self_mask_path self)
    (self_pipe self) Unset (self_vae_scaling_factor self)
    (self_text_dropout self) (self_size self) (self_do_cache self)
    (self_vae_latents self) (self_masks self) (self_bucket_manager self)
    (self_tokenizer_2 self).

Definition set_bucket_manager (self : Dataset) (bm : option BucketManager) : Dataset :=
  mkDataset (self_data_dir self) (self_csv_path self) (self_data self)
    (self_captions self) (self_image_path self) (self_mask_path self)
    (self_pipe self) (self_vae_encoder self) (self_vae_scaling_factor self)
    (self_text_dropout self) (self_size self) (self_do_cache self)
    (self_vae_latents self) (self_masks self) bm (self_tokenizer_2 self).

(** An assignment [obj.tokenizer_2 = t] made from outside the class. *)
Definition set_tokenizer_2 (self : Dataset) (t : option Tokenizer) : Dataset :=
  mkDataset (self_data_dir self) (self_csv_path self) (self_data self)
    (self_captions self) (self_image_path self) (self_mask_path self)
    (self_pipe self) (self_vae_encoder self) (self_vae_scaling_factor self)
    (self_text_dropout self) (self_size self) (self_do_cache self)
    (self_vae_latents self) (self_masks self) (self_bucket_manager self)
    (Bound t).

(** [len(self.data)] *)
Definition __len__ (self : Dataset) : nat := length (df_rows (self_data self)).

(** [self.vae_encoder] *)
Definition get_vae_encoder (self : Dataset) : Py VaeEncoder :=
  lift (getattr_r "vae_encoder" (self_vae_encoder self)).

(** [prepare_image(image, w=w, h=h, pipe=self.pipe).to(dtype=self.vae_encoder.dtype)] *)
Definition prepare_image_to_dtype (self : Dataset) (image : PILImage) (w h : nat)
  : Py Tensor :=
  (let image := prepare_image image w h (self_pipe self) in
   enc <- get_vae_encoder self ;;
   ret (to_dtype (enc_dtype enc) image))%py.

(** The mask of a row whose manifest has a [mask_path] column. *)
Definition load_mask (self : Dataset) (col : list (option string)) (idx : Z)
    (dummy_vae_latent : Tensor) : Py Tensor :=
  (mask_path <- lift (series_get col idx) ;;
   (* os.path.join rejects NaN *)
   mask_path <- (match mask_path with
                 | Some p => ret (os_path_join (self_data_dir self) p)
                 | None => raise TypeError
                 end) ;;
   mask <- Image_open mask_path ;;
   w <- lift (py_index (self_size self) 0) ;;
   h <- lift (py_index (self_size self) 1) ;;
   let mask := prepare_mask mask w h in
   enc <- get_vae_encoder self ;;
   let mask := to_dtype (enc_dtype enc) mask in
   let mask_dtype := t_dtype mask in
   let mask := to_float mask in
   h' <- lift (shape_from_end (t_shape dummy_vae_latent) 1) ;;
   w' <- lift (shape_from_end (t_shape dummy_vae_latent) 0) ;;
   (* under torch.no_grad() *)
   let mask := detach (interpolate_nearest mask h' w') in
   let mask := to_dtype mask_dtype mask in
   c <- lift (py_index (t_shape dummy_vae_latent) 1) ;;
   lift (repeat_channels mask c))%py.

Definition _process (self : Dataset) (idx : Z) (bucketing_resolution : option (nat * nat))
  : Py (LatentDist * Tensor * string) :=
  (image_path <- lift (series_get (self_image_path self) idx) ;;
   let image_path := os_path_join (self_data_dir self) image_path in
   image <- Image_open image_path ;;
   let image := pil_convert "RGB" image in
   image <- (match bucketing_resolution with
             | None =>
                 w <- lift (py_index (self_size self) 0) ;;
                 h <- lift (py_index (self_size self) 1) ;;
                 prepare_image_to_dtype self image w h
             | Some r =>
                 prepare_image_to_dtype self image (fst r) (snd r)
             end) ;;
   enc <- get_vae_encoder self ;;
   vae_latent <- encode enc image ;;
   dummy_vae_latent <- sample vae_latent ;;
   mask <- (match self_mask_path self with
            | None =>
                enc <- get_vae_encoder self ;;
                ret (ones_like dummy_vae_latent (enc_dtype enc))
            | Some col => load_mask self col idx dummy_vae_latent
            end) ;;
   py_assert ((length (t_shape mask) =? 4)%nat
              && (length (t_shape dummy_vae_latent) =? 4)%nat) ;;;
   ret (vae_latent, squeeze mask, image_path))%py.

(** [f"{idx}_vae_latent.pt"] and [f"{idx}_mask.pt"] under the data directory *)
Definition latent_file (data_dir : string) (idx : Z) : string :=
  os_path_join data_dir (pretty idx +:+ "_vae_latent.pt").

Definition mask_file (data_dir : string) (idx : Z) : string :=
  os_path_join data_dir (pretty idx +:+ "_mask.pt").

(** The captions column: lower-cased, every entry of the substitution map
    applied in turn with its key lower-cased, NaN filled with the empty
    string. *)
Definition prepare_captions (substitute_caption_map : list (string * string))
    (raw : list (option string)) : list string :=
  let captions := map (option_map str_lower) raw in
  let captions :=
    fold_left (fun caps kv => map (option_map (str_replace (str_lower (fst kv)) (snd kv))) caps)
              substitute_caption_map captions in
  map (default "") captions.

(** One round of the in-memory loop: the lists grow by one entry. *)
Definition cache_row (self : Dataset) (idx : Z)
    (acc : list LatentDist * list Tensor) : Py (list LatentDist * list Tensor) :=
  (let* (vae_latent, mask, _) := _process self idx None in
   ret (fst acc ++ [vae_latent], snd acc ++ [detach mask]))%py.

(** One round of the on-disk loop: two files are written. *)
Definition store_row (self : Dataset) (idx : Z) (acc : unit) : Py unit :=
  (let* (vae_latent, mask, image_path) := _process self idx None in
   torch_save (ODist vae_latent) (latent_file (self_data_dir self) idx) ;;;
   torch_save (OTensor mask) (mask_file (self_data_dir self) idx))%py.

(** [aspect_ratios[idx] = Image.open(...).size] *)
Definition aspect_ratio_row (self : Dataset) (idx : Z)
    (aspect_ratios : gmap Z (nat * nat)) : Py (gmap Z (nat * nat)) :=
  (p <- lift (series_get (self_image_path self) idx) ;;
   img <- Image_open (os_path_join (self_data_dir self) p) ;;
   ret (<[idx := pil_size img]> aspect_ratios))%py.

(** The attributes assigned before the loops (lines 43-67).  The two cache
    lists and the bucket manager are filled in later; [_process] reads none
    of them. *)
Definition init_self (a : InitArgs) (data : DataFrame) : Dataset :=
  let data_dir := a_data_dir a in
  let csv_path := os_path_join data_dir "captions.csv" in
  let captions := prepare_captions (a_substitute_caption_map a)
                    (map row_caption (df_rows data)) in
  let image_path := map row_image_path (df_rows data) in
  let mask_path := if df_mask_column data
                   then Some (map row_mask_path (df_rows data)) else None in
  let do_cache := (length (df_rows data) <? 500)%nat in
  mkDataset data_dir csv_path data captions image_path mask_path
    (a_pipe a) (Bound (a_vae_encoder a))
    (enc_scaling_factor (a_vae_encoder a)) (a_text_dropout a)
    (a_size a) do_cache None None None Unset.

(** The eager encoding pass (lines 69-87). *)
Definition eager_pass (self : Dataset) : Py Dataset :=
  (if self_do_cache self then
     let* (vae_latents, masks) :=
       for_each (py_range (__len__ self)) (cache_row self) ([], []) in
     ret (set_cache self (Some vae_latents) (Some masks))
   else
     for_each (py_range (__len__ self)) (store_row self) tt ;;;
     ret (set_cache self None None))%py.

(** The bucketing set-up (lines 92-107). *)
Definition setup_bucketing (a : InitArgs) (self : Dataset) : Py Dataset :=
  (if a_aspect_ratio_bucketing a then
     match a_train_batch_size a with
     | None => raise AssertionError
     | Some train_batch_size =>
         aspect_ratios <- for_each (py_range (__len__ self))
                                   (aspect_ratio_row self) ∅ ;;
         ret (set_bucket_manager self
                (Some (BucketManager_new aspect_ratios train_batch_size)))
     end
   else
     ret (set_bucket_manager self None))%py.

Definition __init__ (a : InitArgs) : Py Dataset :=
  (data <- pd_read_csv (os_path_join (a_data_dir a) "captions.csv") ;;
   log_event EncoderBound ;;;
   self <- eager_pass (init_self a data) ;;
   let self := del_vae_encoder self in
   log_event EncoderDeleted ;;;
   log_event CudaCacheEmptied ;;;
   setup_bucketing a self)%py.

(** The list behind an attribute that may be [None]; [None[idx]] is a
    TypeError. *)
Definition subscriptable {A} (l : option (list A)) : Py (list A) :=
  match l with
  | Some l => ret l
  | None => raise TypeError
  end.

Definition __getitem__ (self : Dataset) (idx : Z) (bucketing_resolution : option (nat * nat))
  : Py (string * Tensor * Tensor) :=
  (if self_do_cache self then
     vae_latents <- subscriptable (self_vae_latents self) ;;
     d <- lift (py_index vae_latents idx) ;;
     s <- sample d ;;
     let vae_latent := mul_scalar s (self_vae_scaling_factor self) in
     caption <- lift (series_get (self_captions self) idx) ;;
     let latent := detach (squeeze vae_latent) in
     masks <- subscriptable (self_masks self) ;;
     mask <- lift (py_index masks idx) ;;
     ret (caption, latent, detach mask)
   else
     vae_latent <- torch_load (latent_file (self_data_dir self) idx) ;;
     s <- obj_sample vae_latent ;;
     let vae_latent := mul_scalar s (self_vae_scaling_factor self) in
     mask <- torch_load (mask_file (self_data_dir self) idx) ;;
     caption <- lift (series_get (self_captions self) idx) ;;
     let latent := detach (squeeze vae_latent) in
     mask <- lift (obj_detach mask) ;;
     ret (caption, latent, mask))%py.

(** ** get_aspect_ratio_bucketed_batch

    The method handles what [__getitem__] returns without knowing its
    type, so its values are dynamically typed here. *)

#[local] Unset Elimination Schemes.
Inductive value : Type :=
| VNone
| VStr (s : string)
| VTensor (t : Tensor)
| VList (l : list value)
| VTuple (l : list value).
#[local] Set Elimination Schemes.

(** [v.unsqueeze(0)]: only a tensor has the method. *)
Definition v_unsqueeze (v : value) : result value :=
  match v with
  | VTensor t => Ok (VTensor (unsqueeze0 t))
  | _ => Err (AttributeError "unsqueeze")
  end.

Fixpoint as_tensors (vs : list value) : result (list Tensor) :=
  match vs with
  | [] => Ok []
  | VTensor t :: vs' =>
      match as_tensors vs' with
      | Ok ts => Ok (t :: ts)
      | Err e => Err e
      end
  | _ :: _ => Err TypeError
  end.

(** [torch.cat(vs, dim=0)] *)
Definition torch_cat (vs : list value) : result value :=
  match as_tensors vs with
  | Ok ts => match cat0 ts with
             | Ok t => Ok (VTensor t)
             | Err e => Err e
             end
  | Err e => Err e
  end.

(** [(t1, t2) = s] for a string [s]: it must have exactly two characters. *)
Definition unpack2_str (s : string) : result (value * value) :=
  match s with
  | String a (String b EmptyString) =>
      Ok (VStr (String a EmptyString), VStr (String b EmptyString))
  | _ => Err ValueError
  end.

(** [self.tokenizer_2] *)
Definition get_tokenizer_2 {S} (self : Dataset) : M S (option Tokenizer) :=
  lift (getattr_r "tokenizer_2" (self_tokenizer_2 self)).

(** The four lists [tok1, tok2, vae_latents, masks]. *)
Record BatchLists : Type := mkLists {
  l_tok1 : list value;
  l_tok2 : list value;
  l_vae_latents : list value;
  l_masks : list value
}.

(** The body of [for idx in indices]. *)
Definition batch_row (self : Dataset) (resolution : nat * nat) (idx : Z)
    (acc : BatchLists) : Py BatchLists :=
  (tokenizer_2 <- get_tokenizer_2 self ;;
   let* (t1, tok2, v, m) :=
     (match tokenizer_2 with
      | None =>
          let* (t1, v, m) := __getitem__ self idx (Some resolution) in
          ret (VStr t1, l_tok2 acc, v, m)
      | Some _ =>
          let* (t12, v, m) := __getitem__ self idx (Some resolution) in
          let* (t1, t2) := lift (unpack2_str t12) in
          t2 <- lift (v_unsqueeze t2) ;;
          ret (t1, l_tok2 acc ++ [t2], v, m)
      end) in
   t1 <- lift (v_unsqueeze t1) ;;
   ret (mkLists (l_tok1 acc ++ [t1]) tok2
                (l_vae_latents acc ++ [VTensor (unsqueeze0 v)])
                (l_masks acc ++ [VTensor (unsqueeze0 m)])))%py.

(** The statements after the loop: concatenate and return. *)
Definition batch_return {S} (self : Dataset) (acc : BatchLists) : M S value :=
  (tok1 <- lift (torch_cat (l_tok1 acc)) ;;
   tokenizer_2 <- get_tokenizer_2 self ;;
   tok2 <- (match tokenizer_2 with
            | None => ret (VList (l_tok2 acc))
            | Some _ => lift (torch_cat (l_tok2 acc))
            end) ;;
   vae_latents <- lift (torch_cat (l_vae_latents acc)) ;;
   masks <- lift (torch_cat (l_masks acc)) ;;
   tokenizer_2 <- get_tokenizer_2 self ;;
   match tokenizer_2 with
   | None => ret (VTuple [VTuple [tok1; VNone]; vae_latents; masks])
   | Some _ => ret (VTuple [VTuple [tok1; tok2]; vae_latents; masks])
   end)%py.

(** The method.  The bucket manager is a mutable object held by [self]:
    the dataset comes back with the manager as [get_batch] left it. *)
Definition get_aspect_ratio_bucketed_batch (self : Dataset) (w : World)
  : result value * Dataset * World :=
  match self_bucket_manager self with
  | None => (Err AssertionError, self, w)
  | Some bm =>
      let '(r, bm') := bm_get_batch bm in
      let self := set_bucket_manager self (Some bm') in
      match r with
      | Err e => (Err e, self, w)
      | Ok (indices, resolution) =>
          let '(r, w') :=
            (acc <- for_each indices (batch_row self resolution) (mkLists [] [] [] []) ;;
             batch_return self acc)%py w in
          (r, self, w')
      end
  end.

(** ** Calls a client can make on a constructed dataset *)

Inductive call : Type :=
| CallLen
| CallGetitem (idx : Z) (bucketing_resolution : option (nat * nat))
| CallBatch.

Definition run_call (c : call) (st : Dataset * World) : Dataset * World :=
  match c with
  | CallLen => st
  | CallGetitem idx r => (fst st, snd (__getitem__ (fst st) idx r (snd st)))
  | CallBatch =>
      let '(_, self, w) := get_aspect_ratio_bucketed_batch (fst st) (snd st) in
      (self, w)
  end.

Definition run_calls (cs : list call) (st : Dataset * World) : Dataset * World :=
  fold_left (fun st c => run_call c st) cs st.

End Model.

(** ** A small instance of the libraries, for running the class

    Scalars are integers; an image is its mode and size; the generator is a
    counter; the encoder maps a [1; 3; h; w] image to a distribution over
    [1; 4; h/4; w/4] latents whose sample is filled with the generator's
    value; the bucket manager hands out its first [bsz] indices at
    resolution 8 x 8. *)

Definition toy_numeric : Numeric :=
  {| scalar := Z; s_one := 1; s_mul := Z.mul; s_div := Z.div;
     s_of_N := Z.of_N; s_cast := fun _ x => x |}.

Record ToyImage : Type := mkToyImage {
  toy_mode : string;
  toy_w : nat;
  toy_h : nat
}.

Record ToyBuckets : Type := mkToyBuckets {
  toy_indices : list Z;
  toy_bsz : Z
}.

Definition toy_libs : @Libs toy_numeric :=
  {| Generator := Z;
     PILImage := ToyImage;
     pil_convert := fun m img => mkToyImage m (toy_w img) (toy_h img);
     pil_resize := fun img w h => mkToyImage (toy_mode img) w h;
     pil_size := fun img => (toy_w img, toy_h img);
     np_array := fun img => ([toy_h img; toy_w img],
                             repeat 255%N (toy_h img * toy_w img));
     interpolate_nearest := fun t h w =>
       @mkTensor toy_numeric (@t_dtype toy_numeric t) [1; 1; h; w]%nat
                 (repeat (1 : Z) (h * w)) false;
     BucketManager := ToyBuckets;
     BucketManager_new := fun ar bsz =>
       mkToyBuckets (map fst (map_to_list ar)) bsz;
     bm_get_batch := fun bm =>
       (Ok (take (Z.to_nat (toy_bsz bm)) (toy_indices bm), (8, 8)%nat), bm);
     Tokenizer := unit |}.

Section Toy.
#[local] Existing Instance toy_numeric.
#[local] Existing Instance toy_libs.

Definition toy_pipe : Pipe :=
  mkPipe (fun img => mkTensor Float32 [1; 3; toy_h img; toy_w img]%nat
                       (repeat 0 (3 * toy_h img * toy_w img)) false).

Definition toy_latent_shape (x : Tensor) : list nat :=
  match t_shape x with
  | [_; _; h; w] => [1; 4; h / 4; w / 4]%nat
  | _ => []
  end.

Definition toy_encoder : VaeEncoder :=
  mkEncoder Float32 3
    (fun x => mkDist (fun g =>
        (mkTensor Float32 (toy_latent_shape x)
                  (repeat g (numel (toy_latent_shape x))) false,
         g + 1))).

Definition toy_row (i : nat) : Row :=
  mkRow ("img" +:+ pretty i +:+ ".png") (Some "A CAT sat") None.

(** A data directory with a manifest of [n] rows, no mask column, and one
    16 x 8 image per row. *)
Definition toy_fs (n : nat) : gmap string File :=
  <["data/captions.csv" := FCsv (mkFrame (map toy_row (seq 0 n)) false)]>
    (list_to_map (map (fun i => ("data/img" +:+ pretty i +:+ ".png",
                                 FImage (mkToyImage "RGBA" 16 8)))
                      (seq 0 n))).

Definition toy_world (n : nat) : World := mkWorld (toy_fs n) 7 [].

Definition toy_args (bucketing : bool) : InitArgs :=
  mkArgs "data" toy_pipe toy_encoder [8; 8]%nat 0 bucketing (Some 2)
         [("cat", "dog")].

(** The dataset and the world that the constructor leaves. *)
Definition toy_built (bucketing : bool) (n : nat) : Dataset * World :=
  match __init__ (toy_args bucketing) (toy_world n) with
  | (Ok self, w1) => (self, w1)
  | (Err _, w1) => (init_self (toy_args bucketing) (mkFrame [] false), w1)
  end.

(** Two rows and a mask_path column; the second row leaves its cell empty. *)
Definition toy_world_masks : World :=
  mkWorld
    (<["data/captions.csv" :=
         FCsv (mkFrame [mkRow "img0.png" (Some "a") (Some "mask0.png");
                        mkRow "img1.png" (Some "b") None] true)]>
       (<["data/mask0.png" := FImage (mkToyImage "L" 16 8)]> (toy_fs 2)))
    7 [].


(** Lists as the loop of get_aspect_ratio_bucketed_batch would leave them
    after one row of tensors. *)
Definition toy_lists : BatchLists :=
  mkLists [VTensor (mkTensor Float32 [1; 3]%nat [1; 2; 3] false)]
          []
          [VTensor (mkTensor Float32 [1; 4; 2; 2]%nat (repeat 21 16) false)]
          [VTensor (mkTensor Float32 [1; 4; 2; 2]%nat (repeat 1 16) false)].

(** Any dataset whose tokenizer_2 was set to None from outside. *)
Definition toy_self_no_tokenizer_2 : Dataset :=
  set_tokenizer_2 (init_self (toy_args true) (mkFrame [] false)) None.

(** The shape of a squeezed draw from the distribution [_process] returned. *)
Definition processed_latent_shape (r : result (LatentDist * Tensor * string))
  : option (list nat) :=
  match r with
  | Ok (d, _, _) => Some (t_shape (squeeze (fst (dist_sample d 0))))
  | Err _ => None
  end.

(** One row whose caption cell is empty. *)
Definition toy_world_no_caption : World :=
  mkWorld (<["data/captions.csv" := FCsv (mkFrame [mkRow "img0.png" None None] false)]>
             (toy_fs 1))
          7 [].

End Toy.

(** ** Notions used in the statements *)

(** What [os.path.join] puts in front of a relative name. *)
Definition join_prefix (a : string) : string :=
  match a with
  | EmptyString => EmptyString
  | _ => if endswith_sep a then a else a +:+ "/"
  end.

(** The caption the specification describes: lower-case the raw caption,
    replace every key (matched without regard to case, that is, lower-cased
    and matched against the lower-cased text) by its value, in the order of
    the map; a missing caption is the empty string. *)
Definition spec_caption (m : list (string * string)) (raw : option string) : string :=
  match raw with
  | None => ""
  | Some c =>
      fold_left (fun s kv => str_replace (str_lower (fst kv)) (snd kv) s)
                m (str_lower c)
  end.



(** The errors by which a container reports an index outside its bounds:
    the IndexError of a list, the KeyError of a pandas Series. *)
Definition is_out_of_bounds (e : exn) : bool :=
  match e with
  | IndexError | KeyError => true
  | _ => false
  end.

(** [old] begins at some position of [s]. *)
Fixpoint occurs (old s : string) : bool :=
  String.prefix old s
  || match s with
     | EmptyString => false
     | String _ s' => occurs old s'
     end.

Section Predicates.
Context `{Libs}.

(** A step that touches neither the files nor the event log (it may draw
    from the generator). *)
Definition pure_step {A} (m : Py A) : Prop :=
  forall w r w', m w = (r, w') -> w_fs w' = w_fs w /\ w_events w' = w_events w.

(** A step that leaves every file as it was. *)
Definition keeps_fs {A} (m : Py A) : Prop :=
  forall w r w', m w = (r, w') -> w_fs w' = w_fs w.

(** [m] logs at most [n] encoder calls and nothing else; exactly [n] when it
    succeeds. *)
Definition logs_calls {A} (m : Py A) (n : nat) : Prop :=
  forall w r w', m w = (r, w') ->
    exists k, (k <= n)%nat /\ (is_ok r = true -> k = n) /\
              w_events w' = w_events w ++ repeat EncoderCalled k.

(** [fs'] is [fs] with some paths overwritten by pickles. *)
Definition pickle_ext (fs fs' : gmap string File) : Prop :=
  forall p, fs' !! p = fs !! p \/ exists o, fs' !! p = Some (FPickle o).

(** The latent distribution of row [idx]: the encoding of the row's image
    file, converted to RGB and transformed at the configured size. *)
Definition row_latent_dist (enc : VaeEncoder) (self : Dataset)
    (fs : gmap string File) (idx : Z) : option LatentDist :=
  match series_get (self_image_path self) idx with
  | Ok rel =>
      match fs !! os_path_join (self_data_dir self) rel with
      | Some (FImage img) =>
          match py_index (self_size self) 0, py_index (self_size self) 1 with
          | Ok w, Ok h =>
              Some (enc_encode enc
                      (to_dtype (enc_dtype enc)
                         (prepare_image (pil_convert "RGB" img) w h (self_pipe self))))
          | _, _ => None
          end
      | _ => None
      end
  | Err _ => None
  end.

(** [(d, m)] is what [_process] gives for row [idx] of a data directory
    whose image files are those of [fs]. *)
Definition row_cached (self : Dataset) (enc : VaeEncoder) (fs : gmap string File)
    (idx : Z) (d : LatentDist) (m : Tensor) : Prop :=
  row_latent_dist enc self fs idx = Some d /\
  (exists g, let dummy := fst (dist_sample d g) in
             length (t_shape dummy) = 4%nat /\
             (self_mask_path self = None ->
              m = squeeze (ones_like dummy (enc_dtype enc)))) /\
  (forall col, self_mask_path self = Some col ->
               exists mp, col !! Z.to_nat idx = Some (Some mp)).

(** The cache of [self] (the two lists, or the two files under [fs]) holds
    the distribution [d] and the mask [m] for row [idx]. *)
Definition cache_holds (self : Dataset) (fs : gmap string File) (idx : Z)
    (d : LatentDist) (m : Tensor) : Prop :=
  if self_do_cache self then
    exists ds ms,
      self_vae_latents self = Some ds /\ self_masks self = Some ms /\
      py_index ds idx = Ok d /\ py_index ms idx = Ok m
  else
    fs !! latent_file (self_data_dir self) idx = Some (FPickle (ODist d)) /\
    fs !! mask_file (self_data_dir self) idx = Some (FPickle (OTensor m)).

(** What a call can change in the dataset: the bucket manager, and only
    from one manager to another. *)
Definition same_but_manager (self self' : Dataset) : Prop :=
  exists bm, self' = set_bucket_manager self bm /\
             (is_Some bm <-> is_Some (self_bucket_manager self)).

(** Every sample of a distribution the encoder returns has the same shape. *)
Definition sample_shape_fixed (enc : VaeEncoder) : Prop :=
  forall x g g',
    t_shape (fst (dist_sample (enc_encode enc x) g))
    = t_shape (fst (dist_sample (enc_encode enc x) g')).

(** The batch has no position for the second tokenizer. *)
Definition second_slot_omitted (batch : value) : bool :=
  match batch with
  | VTuple [VTuple [_; _]; _; _] => false
  | VTuple [_; _; _] => true
  | _ => false
  end.

(** The shape of the latent in what [__getitem__] returned. *)
Definition returned_latent_shape (r : result (string * Tensor * Tensor))
  : option (list nat) :=
  match r with
  | Ok (_, latent, _) => Some (t_shape latent)
  | Err _ => None
  end.

(** The arguments [a] with other bucketing settings. *)
Definition with_bucketing (a : InitArgs) (aspect_ratio_bucketing : bool)
    (train_batch_size : option Z) : InitArgs :=
  mkArgs (a_data_dir a) (a_pipe a) (a_vae_encoder a) (a_size a) (a_text_dropout a)
         aspect_ratio_bucketing train_batch_size (a_substitute_caption_map a).

(** [m] leaves every path outside [P] as it was. *)
Definition writes_only (P : string -> Prop) {A} (m : Py A) : Prop :=
  forall w r w', m w = (r, w') ->
    forall p, ~ P p -> w_fs w' !! p = w_fs w !! p.

(** [p] is one of the two cache files of a row below [n]. *)
Definition is_cache_file (dir : string) (n : nat) (p : string) : Prop :=
  exists j, (j < n)%nat /\
            (p = latent_file dir (Z.of_nat j) \/ p = mask_file dir (Z.of_nat j)).

(** What the mask branch relies on in numpy and torch: the array of a
    single-channel image has two dimensions, and [interpolate] turns a
    [1; 1; h0; w0] tensor into a [1; 1; h; w] one. *)
Definition mask_library_contract : Prop :=
  (forall img, length (fst (np_array (pil_convert "L" img))) = 2%nat) /\
  (forall t h w h0 w0,
     t_shape t = [1; 1; h0; w0]%nat ->
     t_shape (interpolate_nearest t h w) = [1; 1; h; w]%nat).

End Predicates.

(** * Properties *)

(** ** File names of the on-disk cache *)

Section FileNames.

Lemma list_ascii_app (a b : string) :
  list_ascii_of_string (a +:+ b) = list_ascii_of_string a ++ list_ascii_of_string b.
Proof.
  induction a as [|c a IH]; simpl; [reflexivity|].
  now rewrite IH.
Qed.

Lemma list_ascii_inj (a b : string) :
  list_ascii_of_string a = list_ascii_of_string b -> a = b.
Proof.
  intros E.
  rewrite <- (string_of_list_ascii_of_string a), <- (string_of_list_ascii_of_string b).
  now rewrite E.
Qed.

Lemma append_inv_tail (a b t : string) : a +:+ t = b +:+ t -> a = b.
Proof.
  intros E. apply list_ascii_inj.
  apply (f_equal list_ascii_of_string) in E.
  rewrite !list_ascii_app in E.
  now apply app_inv_tail in E.
Qed.

Lemma suffixes_differ (a b : string) :
  a +:+ "_vae_latent.pt" <> b +:+ "_mask.pt".
Proof.
  intros E. apply (f_equal list_ascii_of_string) in E.
  rewrite !list_ascii_app in E.
  apply (f_equal (@rev ascii)) in E.
  rewrite !rev_app_distr in E. simpl in E. discriminate E.
Qed.

(** The digits of a number never begin with the path separator. *)
Lemma pretty_N_go_head (x : N) : forall c s,
  c <> "/"%char ->
  exists c' s', pretty_N_go x (String c s) = String c' s' /\ c' <> "/"%char.
Proof.
  induction (N.lt_wf_0 x) as [x _ IH]; intros c s Hc.
  destruct (decide (x = 0%N)) as [->|Hx].
  - rewrite pretty_N_go_0. eauto.
  - rewrite pretty_N_go_step by lia.
    apply IH; [apply N.div_lt; lia|].
    unfold pretty_N_char. repeat case_match; discriminate.
Qed.

Lemma pretty_N_head (x : N) :
  exists c s, pretty x = String c s /\ c <> "/"%char.
Proof.
  unfold pretty, pretty_N. case_decide as Hx.
  - exists "0"%char, "". split; [reflexivity|discriminate].
  - rewrite pretty_N_go_step by lia.
    apply pretty_N_go_head.
    unfold pretty_N_char. repeat case_match; discriminate.
Qed.

Lemma pretty_Z_head (z : Z) :
  exists c s, pretty z = String c s /\ c <> "/"%char.
Proof.
  destruct z as [|q|q]; unfold pretty, pretty_Z.
  - exists "0"%char, "". split; [reflexivity|discriminate].
  - apply pretty_N_head.
  - exists "-"%char, (pretty (N.pos q)). split; [reflexivity|discriminate].
Qed.

Lemma append_assoc (a b c : string) : (a +:+ b) +:+ c = a +:+ (b +:+ c).
Proof.
  induction a as [|x a IH]; [reflexivity|].
  change (String x ((a +:+ b) +:+ c) = String x (a +:+ (b +:+ c))).
  now rewrite IH.
Qed.

Lemma startswith_sep_other (c : ascii) (s : string) :
  c <> "/"%char -> startswith_sep (String c s) = false.
Proof.
  intros Hc. destruct c as [[] [] [] [] [] [] [] []]; try reflexivity.
  now contradiction Hc.
Qed.

Lemma join_numbered (dir : string) (idx : Z) (suffix : string) :
  os_path_join dir (pretty idx +:+ suffix) = join_prefix dir +:+ (pretty idx +:+ suffix).
Proof.
  destruct (pretty_Z_head idx) as (c & s & -> & Hc).
  unfold os_path_join, join_prefix.
  change (String c s +:+ suffix) with (String c (s +:+ suffix)).
  rewrite (startswith_sep_other _ _ Hc).
  destruct dir as [|d dir]; [reflexivity|].
  destruct (endswith_sep (String d dir)); [reflexivity|].
  now rewrite <- append_assoc.
Qed.

(** The cache files of different rows have different names, and a latent
    file is never a mask file. *)
Lemma latent_file_inj (dir : string) (i j : Z) :
  latent_file dir i = latent_file dir j -> i = j.
Proof.
  unfold latent_file. rewrite !join_numbered. intros E.
  apply (inj (String.append _)) in E.
  apply append_inv_tail in E. now apply (inj pretty) in E.
Qed.

Lemma mask_file_inj (dir : string) (i j : Z) :
  mask_file dir i = mask_file dir j -> i = j.
Proof.
  unfold mask_file. rewrite !join_numbered. intros E.
  apply (inj (String.append _)) in E.
  apply append_inv_tail in E. now apply (inj pretty) in E.
Qed.

Lemma latent_file_not_mask_file (dir : string) (i j : Z) :
  latent_file dir i <> mask_file dir j.
Proof.
  unfold latent_file, mask_file. rewrite !join_numbered. intros E.
  apply (inj (String.append _)) in E.
  now apply suffixes_differ in E.
Qed.

End FileNames.

(** ** Running the monad *)

Section MonadFacts.
Context {S : Type}.

Lemma bind_Ok {A B} (m : M S A) (k : A -> M S B) s b s' :
  bind m k s = (Ok b, s') ->
  exists a s1, m s = (Ok a, s1) /\ k a s1 = (Ok b, s').
Proof.
  unfold bind. destruct (m s) as [[a|e] s1]; intros E.
  - exists a, s1. auto.
  - discriminate E.
Qed.

Lemma bind_step {A B} (m : M S A) (k : A -> M S B) s a s1 :
  m s = (Ok a, s1) -> bind m k s = k a s1.
Proof. unfold bind. now intros ->. Qed.


Lemma lift_inv {A} (r r' : result A) (s s' : S) :
  lift r s = (r', s') -> r' = r /\ s' = s.
Proof. unfold lift. intros [= <- <-]. auto. Qed.

Lemma ret_inv {A} (a : A) (r : result A) (s s' : S) :
  ret a s = (r, s') -> r = Ok a /\ s' = s.
Proof. unfold ret. intros [= <- <-]. auto. Qed.

Lemma assert_Ok (c : bool) (s s' : S) u :
  py_assert c s = (Ok u, s') -> c = true /\ s' = s.
Proof. unfold py_assert. destruct c; [intros [= _ <-]; auto | discriminate]. Qed.

End MonadFacts.

(** Python's indexing inside the bounds. *)
Lemma py_index_lookup {A} (l : list A) (i : nat) (a : A) :
  l !! i = Some a -> py_index l (Z.of_nat i) = Ok a.
Proof.
  intros Hl. pose proof (lookup_lt_Some _ _ _ Hl) as Hlt.
  unfold py_index.
  destruct (Z.of_nat i <? 0) eqn:E0; [apply Z.ltb_lt in E0; lia|].
  destruct (0 <=? Z.of_nat i) eqn:E1; [|apply Z.leb_gt in E1; lia].
  destruct (Z.of_nat i <? Z.of_nat (length l)) eqn:E2; [|apply Z.ltb_ge in E2; lia].
  simpl. rewrite Nat2Z.id.
  replace (nth_error l i) with (l !! i); [now rewrite Hl|].
  clear. revert i. induction l as [|x l IH]; intros [|i]; simpl; auto.
Qed.

Lemma py_index_at_len {A} (l : list A) :
  py_index l (Z.of_nat (length l)) = Err IndexError.
Proof.
  unfold py_index.
  destruct (Z.of_nat (length l) <? 0) eqn:E0; [apply Z.ltb_lt in E0; lia|].
  destruct (Z.of_nat (length l) <? Z.of_nat (length l)) eqn:E2;
    [apply Z.ltb_lt in E2; lia|].
  now rewrite andb_false_r.
Qed.

Lemma series_get_lookup {A} (l : list A) (i : nat) (a : A) :
  l !! i = Some a -> series_get l (Z.of_nat i) = Ok a.
Proof.
  intros Hl. pose proof (lookup_lt_Some _ _ _ Hl) as Hlt.
  unfold series_get.
  destruct (0 <=? Z.of_nat i) eqn:E1; [|apply Z.leb_gt in E1; lia].
  destruct (Z.of_nat i <? Z.of_nat (length l)) eqn:E2; [|apply Z.ltb_ge in E2; lia].
  simpl. rewrite Nat2Z.id.
  replace (nth_error l i) with (l !! i); [now rewrite Hl|].
  clear. revert i. induction l as [|x l IH]; intros [|i]; simpl; auto.
Qed.

Lemma series_get_Ok {A} (l : list A) (i : Z) (a : A) :
  series_get l i = Ok a -> 0 <= i /\ l !! Z.to_nat i = Some a.
Proof.
  unfold series_get.
  destruct (0 <=? i) eqn:E1; [|discriminate].
  destruct (i <? Z.of_nat (length l)) eqn:E2; [|discriminate].
  simpl. apply Z.leb_le in E1.
  replace (nth_error l (Z.to_nat i)) with (l !! Z.to_nat i).
  - destruct (l !! Z.to_nat i); [intros [= ->]; auto | discriminate].
  - generalize (Z.to_nat i). clear. intros i. revert i.
    induction l as [|x l IH]; intros [|i]; simpl; auto.
Qed.

Lemma series_get_at_len {A} (l : list A) :
  series_get l (Z.of_nat (length l)) = Err KeyError.
Proof.
  unfold series_get.
  destruct (Z.of_nat (length l) <? Z.of_nat (length l)) eqn:E2;
    [apply Z.ltb_lt in E2; lia|].
  now rewrite andb_false_r.
Qed.

(** ** ASCII text stays ASCII *)








(** ** What each step does to the world *)

Section Effects.
Context `{Libs}.

Lemma pure_ret {A} (a : A) : pure_step (ret a).
Proof. intros w r w' [= <- <-]. auto. Qed.

Lemma pure_raise {A} e : pure_step (@raise World A e).
Proof. intros w r w' [= <- <-]. auto. Qed.

Lemma pure_lift {A} (x : result A) : pure_step (lift x).
Proof. intros w r w' [= <- <-]. auto. Qed.

Lemma pure_assert c : pure_step (py_assert c).
Proof. destruct c; [apply pure_ret | apply pure_raise]. Qed.

Lemma pure_bind {A B} (m : Py A) (k : A -> Py B) :
  pure_step m -> (forall a, pure_step (k a)) -> pure_step (bind m k).
Proof.
  intros Hm Hk w r w' E. unfold bind in E.
  destruct (m w) as [[a|e] w1] eqn:E1.
  - destruct (Hm _ _ _ E1) as [F1 L1]. destruct (Hk a _ _ _ E) as [F2 L2].
    split; congruence.
  - inversion E; subst. exact (Hm _ _ _ E1).
Qed.

Lemma pure_Image_open p : pure_step (Image_open p).
Proof.
  intros w r w' E. unfold Image_open in E.
  destruct (w_fs w !! p) as [[]|]; inversion E; auto.
Qed.

Lemma pure_read_csv p : pure_step (pd_read_csv p).
Proof.
  intros w r w' E. unfold pd_read_csv in E.
  destruct (w_fs w !! p) as [[]|]; inversion E; auto.
Qed.

Lemma pure_torch_load p : pure_step (torch_load p).
Proof.
  intros w r w' E. unfold torch_load in E.
  destruct (w_fs w !! p) as [[]|]; inversion E; auto.
Qed.

Lemma pure_sample d : pure_step (sample d).
Proof.
  intros w r w' E. unfold sample in E.
  destruct (dist_sample d (w_rng w)). inversion E; auto.
Qed.

Lemma pure_obj_sample o : pure_step (obj_sample o).
Proof. destruct o; [apply pure_sample | apply pure_raise]. Qed.

Lemma pure_get_vae_encoder self : pure_step (get_vae_encoder self).
Proof. apply pure_lift. Qed.

Lemma pure_get_tokenizer_2 self : pure_step (get_tokenizer_2 self).
Proof. apply pure_lift. Qed.

Lemma pure_subscriptable {A} (l : option (list A)) : pure_step (subscriptable l).
Proof. destruct l; [apply pure_ret | apply pure_raise]. Qed.

Lemma pure_for_each {A B} (body : A -> B -> Py B) :
  (forall x acc, pure_step (body x acc)) ->
  forall xs acc, pure_step (for_each xs body acc).
Proof.
  intros Hb xs. induction xs as [|x xs IH]; intros acc; simpl.
  - apply pure_ret.
  - apply pure_bind; auto.
Qed.

End Effects.

Create HintDb pure discriminated.
#[export] Hint Resolve pure_ret pure_raise pure_lift pure_assert pure_Image_open
  pure_read_csv pure_torch_load pure_sample pure_obj_sample
  pure_get_vae_encoder pure_get_tokenizer_2 pure_subscriptable : pure.

Ltac pure_tac :=
  repeat first
    [ apply pure_bind; [|intros ?]
    | solve [auto with pure]
    | match goal with
      | |- pure_step (match ?x with _ => _ end) => destruct x
      | |- pure_step (if ?x then _ else _) => destruct x
      end ].

Section DerivedEffects.
Context `{Libs}.

Lemma pure_prepare_image_to_dtype self image w h :
  pure_step (prepare_image_to_dtype self image w h).
Proof. unfold prepare_image_to_dtype. pure_tac. Qed.

Lemma pure_load_mask self col idx dummy : pure_step (load_mask self col idx dummy).
Proof. unfold load_mask. pure_tac. Qed.

Lemma pure_getitem self idx r : pure_step (__getitem__ self idx r).
Proof. unfold __getitem__. pure_tac. Qed.

Lemma pure_aspect_ratio_row self idx ar : pure_step (aspect_ratio_row self idx ar).
Proof. unfold aspect_ratio_row. pure_tac. Qed.

Lemma pure_keeps_fs {A} (m : Py A) : pure_step m -> keeps_fs m.
Proof. intros Hm w r w' E. exact (proj1 (Hm _ _ _ E)). Qed.

Lemma pure_logs_none {A} (m : Py A) : pure_step m -> logs_calls m 0.
Proof.
  intros Hm w r w' E. exists 0%nat. repeat split; auto.
  simpl. rewrite app_nil_r. exact (proj2 (Hm _ _ _ E)).
Qed.

Lemma keeps_fs_bind {A B} (m : Py A) (k : A -> Py B) :
  keeps_fs m -> (forall a, keeps_fs (k a)) -> keeps_fs (bind m k).
Proof.
  intros Hm Hk w r w' E. unfold bind in E.
  destruct (m w) as [[a|e] w1] eqn:E1.
  - rewrite (Hk a _ _ _ E). exact (Hm _ _ _ E1).
  - inversion E; subst. exact (Hm _ _ _ E1).
Qed.

Lemma logs_calls_bind {A B} (m : Py A) (k : A -> Py B) (a b : nat) :
  logs_calls m a -> (forall x, logs_calls (k x) b) -> logs_calls (bind m k) (a + b).
Proof.
  intros Hm Hk w r w' E. unfold bind in E.
  destruct (m w) as [[x|e] w1] eqn:E1.
  - destruct (Hm _ _ _ E1) as (k1 & L1 & O1 & V1).
    destruct (Hk x _ _ _ E) as (k2 & L2 & O2 & V2).
    specialize (O1 eq_refl). subst k1.
    exists (a + k2)%nat. split; [lia|]. split.
    + intros Hr. rewrite (O2 Hr). reflexivity.
    + rewrite V2, V1, <- app_assoc, repeat_app. reflexivity.
  - inversion E; subst. destruct (Hm _ _ _ E1) as (k1 & L1 & O1 & V1).
    exists k1. split; [lia|]. split; [discriminate|exact V1].
Qed.

Lemma keeps_fs_encode enc x : keeps_fs (encode enc x).
Proof. intros w r w' [= <- <-]. reflexivity. Qed.

Lemma logs_calls_encode enc x : logs_calls (encode enc x) 1.
Proof. intros w r w' [= <- <-]. exists 1%nat. auto. Qed.

Lemma logs_calls_torch_save o p : logs_calls (torch_save o p) 0.
Proof.
  intros w r w' [= <- <-]. exists 0%nat. simpl. rewrite app_nil_r. auto.
Qed.

Lemma keeps_fs_process self idx res : keeps_fs (_process self idx res).
Proof.
  unfold _process.
  repeat first
    [ apply keeps_fs_encode
    | apply keeps_fs_bind; [|intros ?]
    | apply pure_keeps_fs; pure_tac ].
Qed.

Lemma logs_calls_process self idx res : logs_calls (_process self idx res) 1.
Proof.
  unfold _process.
  apply (logs_calls_bind _ _ 0 1); [apply pure_logs_none; pure_tac|intros ?].
  apply (logs_calls_bind _ _ 0 1); [apply pure_logs_none; pure_tac|intros ?].
  apply (logs_calls_bind _ _ 0 1);
    [apply pure_logs_none; pure_tac|intros ?].
  apply (logs_calls_bind _ _ 0 1); [apply pure_logs_none; pure_tac|intros ?].
  apply (logs_calls_bind _ _ 1 0); [apply logs_calls_encode|intros ?].
  apply pure_logs_none. pure_tac.
Qed.

Lemma logs_calls_for_each {A B} (body : A -> B -> Py B) :
  (forall x acc, logs_calls (body x acc) 1) ->
  forall xs acc, logs_calls (for_each xs body acc) (length xs).
Proof.
  intros Hb xs. induction xs as [|x xs IH]; intros acc; simpl.
  - apply pure_logs_none, pure_ret.
  - apply (logs_calls_bind _ _ 1 (length xs)); auto.
Qed.

End DerivedEffects.

(** ** What the eager pass computes for a row *)

Section Rows.
Context `{Libs}.

Lemma pickle_ext_refl fs : pickle_ext fs fs.
Proof. intros p. now left. Qed.

Lemma pickle_ext_save fs fs' p o :
  pickle_ext fs fs' -> pickle_ext fs (<[p := FPickle o]> fs').
Proof.
  intros Hext q. destruct (decide (p = q)) as [->|Hne].
  - right. exists o. apply lookup_insert_eq.
  - rewrite lookup_insert_ne by exact Hne. apply Hext.
Qed.

Lemma pickle_ext_image fs fs' p img :
  pickle_ext fs fs' -> fs' !! p = Some (FImage img) -> fs !! p = Some (FImage img).
Proof.
  intros Hext Hp. destruct (Hext p) as [E|[o E]].
  - now rewrite <- E.
  - rewrite E in Hp. discriminate Hp.
Qed.

Lemma Image_open_Ok p w img w' :
  Image_open p w = (Ok img, w') -> w_fs w !! p = Some (FImage img) /\ w' = w.
Proof.
  unfold Image_open. destruct (w_fs w !! p) as [[]|]; intros E; inversion E; auto.
Qed.

Lemma get_vae_encoder_Ok self enc e w w' :
  self_vae_encoder self = Bound enc ->
  get_vae_encoder self w = (Ok e, w') -> e = enc /\ w' = w.
Proof.
  unfold get_vae_encoder. intros -> E. apply lift_inv in E as [E ->].
  simpl in E. inversion E. auto.
Qed.

Lemma prepare_image_to_dtype_Ok self enc image sw sh w t w' :
  self_vae_encoder self = Bound enc ->
  prepare_image_to_dtype self image sw sh w = (Ok t, w') ->
  t = to_dtype (enc_dtype enc) (prepare_image image sw sh (self_pipe self)) /\ w' = w.
Proof.
  intros Henc E. unfold prepare_image_to_dtype in E.
  apply bind_Ok in E as (e & w1 & E1 & E).
  apply (get_vae_encoder_Ok _ _ _ _ _ Henc) in E1 as [-> ->].
  apply ret_inv in E as [[= <-] ->]. auto.
Qed.

Lemma sample_Ok d w t w' :
  sample d w = (Ok t, w') ->
  t = fst (dist_sample d (w_rng w)) /\ w_fs w' = w_fs w.
Proof.
  unfold sample. destruct (dist_sample d (w_rng w)) as [t0 g]. intros [= <- <-]. auto.
Qed.

Lemma load_mask_Ok self col idx dummy w m w' :
  load_mask self col idx dummy w = (Ok m, w') ->
  exists mp, col !! Z.to_nat idx = Some (Some mp).
Proof.
  intros E. unfold load_mask in E.
  apply bind_Ok in E as (mp & w1 & E1 & E).
  apply lift_inv in E1 as [E1 ->]. symmetry in E1.
  apply series_get_Ok in E1 as [_ E1].
  destruct mp as [mp|].
  - now exists mp.
  - apply bind_Ok in E as (x & w2 & E2 & _). discriminate E2.
Qed.

(** A successful [_process] at the configured size gives the row's
    distribution, and, without a mask column, a mask of ones shaped like a
    draw from it. *)
Lemma process_row_cached self enc fs0 idx w d m p w' :
  self_vae_encoder self = Bound enc ->
  pickle_ext fs0 (w_fs w) ->
  _process self idx None w = (Ok (d, m, p), w') ->
  row_cached self enc fs0 idx d m.
Proof.
  intros Henc Hext E. unfold _process in E.
  apply bind_Ok in E as (rel & w1 & E1 & E).
  apply lift_inv in E1 as [E1 ->]. symmetry in E1.
  apply bind_Ok in E as (img & w2 & E2 & E).
  apply Image_open_Ok in E2 as [Himg ->].
  apply bind_Ok in E as (image & w3 & E3 & E).
  apply bind_Ok in E3 as (sw & w4 & E4 & E3).
  apply lift_inv in E4 as [E4 ->]. symmetry in E4.
  apply bind_Ok in E3 as (sh & w5 & E5 & E3).
  apply lift_inv in E5 as [E5 ->]. symmetry in E5.
  apply (prepare_image_to_dtype_Ok _ _ _ _ _ _ _ _ Henc) in E3 as [-> ->].
  apply bind_Ok in E as (e & w6 & E6 & E).
  apply (get_vae_encoder_Ok _ _ _ _ _ Henc) in E6 as [-> ->].
  apply bind_Ok in E as (vae_latent & w7 & E7 & E).
  unfold encode in E7. apply bind_Ok in E7 as ([] & w8 & E8 & E7).
  apply ret_inv in E7 as [Hv ->]. injection Hv as ->.
  apply bind_Ok in E as (dummy & w9 & E9 & E).
  apply sample_Ok in E9 as [-> _].
  apply bind_Ok in E as (mask & w10 & E10 & E).
  apply bind_Ok in E as ([] & w11 & E11 & E).
  apply assert_Ok in E11 as [Hassert ->].
  apply ret_inv in E as [Hr ->]. injection Hr as -> -> ->.
  apply andb_prop in Hassert as [_ Hdummy]. apply Nat.eqb_eq in Hdummy.
  unfold row_cached. split; [|split].
  - unfold row_latent_dist. rewrite E1.
    rewrite (pickle_ext_image _ _ _ _ Hext Himg), E4, E5. reflexivity.
  - exists (w_rng w8). cbv zeta. split; [exact Hdummy|].
    intros Hnone. rewrite Hnone in E10.
    apply bind_Ok in E10 as (e & w12 & E12 & E10).
    apply (get_vae_encoder_Ok _ _ _ _ _ Henc) in E12 as [-> ->].
    apply ret_inv in E10 as [Hm _]. injection Hm as ->. reflexivity.
  - intros col Hcol. rewrite Hcol in E10.
    now apply load_mask_Ok in E10.
Qed.

Lemma cache_row_Ok self idx lat msk acc w1 w :
  cache_row self idx (lat, msk) w = (Ok acc, w1) ->
  exists d m p, _process self idx None w = (Ok (d, m, p), w1) /\
                acc = (lat ++ [d], msk ++ [detach m]).
Proof.
  intros E. unfold cache_row in E.
  apply bind_Ok in E as ([[d m] p] & w2 & E1 & E).
  simpl in E. apply ret_inv in E as [Hacc ->]. injection Hacc as ->.
  exists d, m, p. auto.
Qed.

(** The in-memory loop appends one processed row per index, in order. *)
Lemma cache_loop self enc fs0 :
  self_vae_encoder self = Bound enc ->
  forall n k lat msk w lat' msk' w',
    pickle_ext fs0 (w_fs w) ->
    for_each (map Z.of_nat (seq k n)) (cache_row self) (lat, msk) w
      = (Ok (lat', msk'), w') ->
    exists ds ms,
      lat' = lat ++ ds /\ msk' = msk ++ map detach ms /\
      length ds = n /\ length ms = n /\
      forall j, (j < n)%nat ->
        exists d m, ds !! j = Some d /\ ms !! j = Some m /\
                    row_cached self enc fs0 (Z.of_nat (k + j)) d m.
Proof.
  intros Henc. induction n as [|n IH]; intros k lat msk w lat' msk' w' Hext E.
  - simpl in E. apply ret_inv in E as [Hacc _]. injection Hacc as <- <-.
    exists [], []. rewrite !app_nil_r. repeat split; auto. intros j Hj. lia.
  - simpl in E. apply bind_Ok in E as (acc & w1 & E1 & E).
    apply cache_row_Ok in E1 as (d & m & p & E1 & ->).
    pose proof (keeps_fs_process _ _ _ _ _ _ E1) as Hfs.
    apply IH in E as (ds & ms & -> & -> & Lds & Lms & Hrows);
      [|now rewrite Hfs].
    exists (d :: ds), (m :: ms). rewrite <- !app_assoc. simpl.
    repeat split; auto.
    intros [|j] Hj.
    + exists d, m. rewrite Nat.add_0_r. split; [reflexivity|]. split; [reflexivity|].
      eapply process_row_cached; eauto.
    + destruct (Hrows j) as (d' & m' & ? & ? & Hrow); [lia|].
      exists d', m'. split; [assumption|]. split; [assumption|].
      replace (k + S j)%nat with (S k + j)%nat by lia. exact Hrow.
Qed.

Lemma store_row_Ok self idx u w w1 :
  store_row self idx tt w = (Ok u, w1) ->
  exists d m p w0,
    _process self idx None w = (Ok (d, m, p), w0) /\
    w_fs w1 = <[mask_file (self_data_dir self) idx := FPickle (OTensor m)]>
                (<[latent_file (self_data_dir self) idx := FPickle (ODist d)]> (w_fs w0)).
Proof.
  intros E. unfold store_row in E.
  apply bind_Ok in E as ([[d m] p] & w0 & E1 & E).
  apply bind_Ok in E as ([] & w2 & E2 & E).
  exists d, m, p, w0. split; [exact E1|].
  unfold torch_save, modify in E2, E. inversion E2; subst w2. inversion E. reflexivity.
Qed.

(** The on-disk loop writes the two files of every index of its range,
    touches no other path, and no later round overwrites them. *)
Lemma store_loop self enc fs0 :
  self_vae_encoder self = Bound enc ->
  forall n k w u w',
    pickle_ext fs0 (w_fs w) ->
    for_each (map Z.of_nat (seq k n)) (store_row self) tt w = (Ok u, w') ->
    pickle_ext fs0 (w_fs w') /\
    (forall p,
       (forall j, (k <= j < k + n)%nat ->
                  p <> latent_file (self_data_dir self) (Z.of_nat j) /\
                  p <> mask_file (self_data_dir self) (Z.of_nat j)) ->
       w_fs w' !! p = w_fs w !! p) /\
    (forall j, (k <= j < k + n)%nat ->
       exists d m,
         w_fs w' !! latent_file (self_data_dir self) (Z.of_nat j) = Some (FPickle (ODist d)) /\
         w_fs w' !! mask_file (self_data_dir self) (Z.of_nat j) = Some (FPickle (OTensor m)) /\
         row_cached self enc fs0 (Z.of_nat j) d m).
Proof.
  intros Henc. induction n as [|n IH]; intros k w u w' Hext E.
  - simpl in E. apply ret_inv in E as [_ ->].
    repeat split; auto. intros j Hj. lia.
  - simpl in E. apply bind_Ok in E as ([] & w1 & E1 & E).
    apply store_row_Ok in E1 as (d & m & p & w0 & E1 & Hfs1).
    pose proof (keeps_fs_process _ _ _ _ _ _ E1) as Hfs0.
    assert (Hext1 : pickle_ext fs0 (w_fs w1)).
    { rewrite Hfs1, Hfs0. now do 2 apply pickle_ext_save. }
    destruct (IH _ _ _ _ Hext1 E) as (Hext' & Hframe & Hrows).
    split; [exact Hext'|]. split.
    + intros q Hq. rewrite Hframe by (intros j Hj; apply Hq; lia).
      destruct (Hq k) as [Hq1 Hq2]; [lia|].
      rewrite Hfs1, Hfs0.
      rewrite lookup_insert_ne by congruence.
      now rewrite lookup_insert_ne by congruence.
    + intros j Hj. destruct (decide (j = k)) as [->|Hne].
      * exists d, m. split; [|split].
        -- rewrite Hframe.
           ++ rewrite Hfs1. rewrite lookup_insert_ne.
              ** apply lookup_insert_eq.
              ** intros Hbad. symmetry in Hbad.
                 now apply latent_file_not_mask_file in Hbad.
           ++ intros j Hj'. split.
              ** intros Hbad. apply latent_file_inj in Hbad. lia.
              ** apply latent_file_not_mask_file.
        -- rewrite Hframe.
           ++ rewrite Hfs1. apply lookup_insert_eq.
           ++ intros j Hj'. split.
              ** intros Hbad. symmetry in Hbad.
                 now apply latent_file_not_mask_file in Hbad.
              ** intros Hbad. apply mask_file_inj in Hbad. lia.
        -- exact (process_row_cached _ _ _ _ _ _ _ _ _ Henc Hext E1).
      * apply Hrows. lia.
Qed.

End Rows.

(** ** The cache after construction *)

Section Cache.
Context `{Libs}.

Lemma sample_run d w :
  sample d w = (Ok (fst (dist_sample d (w_rng w))),
                mkWorld (w_fs w) (snd (dist_sample d (w_rng w))) (w_events w)).
Proof. unfold sample. now destruct (dist_sample d (w_rng w)). Qed.

(** A read of a row the cache holds. *)
Lemma getitem_cached self fs idx d m r w cap :
  cache_holds self fs idx d m ->
  series_get (self_captions self) idx = Ok cap ->
  self_do_cache self = true \/ w_fs w = fs ->
  __getitem__ self idx r w =
    (Ok (cap,
         detach (squeeze (mul_scalar (fst (dist_sample d (w_rng w)))
                                     (self_vae_scaling_factor self))),
         detach m),
     mkWorld (w_fs w) (snd (dist_sample d (w_rng w))) (w_events w)).
Proof.
  intros Hc Hcap Hfs. unfold cache_holds in Hc. unfold __getitem__.
  destruct (self_do_cache self).
  - destruct Hc as (ds & ms & -> & -> & Hd & Hm).
    simpl. unfold bind at 1. simpl. unfold bind at 1. unfold lift at 1.
    rewrite Hd. unfold bind at 1. rewrite sample_run.
    unfold bind at 1. unfold lift at 1. rewrite Hcap.
    unfold bind at 1. simpl. unfold bind at 1. unfold lift at 1. rewrite Hm.
    reflexivity.
  - destruct Hfs as [Hfs|Hfs]; [discriminate|]. destruct Hc as [Hd Hm].
    unfold bind at 1. unfold torch_load at 1. rewrite Hfs, Hd.
    unfold bind at 1. simpl. rewrite sample_run.
    unfold bind at 1. unfold torch_load at 1. simpl. rewrite Hfs, Hm.
    unfold bind at 1. unfold lift at 1. rewrite Hcap.
    reflexivity.
Qed.

Lemma keeps_fs_for_each {A B} (body : A -> B -> Py B) :
  (forall x acc, keeps_fs (body x acc)) ->
  forall xs acc, keeps_fs (for_each xs body acc).
Proof.
  intros Hb xs. induction xs as [|x xs IH]; intros acc; simpl.
  - apply pure_keeps_fs, pure_ret.
  - apply keeps_fs_bind; auto.
Qed.

Lemma py_range_length n : length (py_range n) = n.
Proof. unfold py_range. now rewrite length_map, length_seq. Qed.

(** After the eager pass the cache holds every row. *)
Lemma eager_pass_Ok self enc w self' w' :
  self_vae_encoder self = Bound enc ->
  eager_pass self w = (Ok self', w') ->
  exists lat msk,
    self' = set_cache self lat msk /\
    pickle_ext (w_fs w) (w_fs w') /\
    (self_do_cache self = true ->
     exists ds ms, lat = Some ds /\ msk = Some ms /\
                   length ds = __len__ self /\ length ms = __len__ self) /\
    (self_do_cache self = false -> lat = None /\ msk = None) /\
    (forall i, (i < __len__ self)%nat ->
       exists d m0 ms,
         cache_holds self' (w_fs w') (Z.of_nat i) d ms /\
         detach ms = detach m0 /\
         row_cached self enc (w_fs w) (Z.of_nat i) d m0).
Proof.
  intros Henc E. unfold eager_pass in E.
  destruct (self_do_cache self) eqn:Hmode.
  - apply bind_Ok in E as ([lat msk] & w1 & E1 & E).
    apply ret_inv in E as [Hs ->]. injection Hs as ->.
    assert (Hfs : w_fs w1 = w_fs w).
    { revert E1. apply keeps_fs_for_each. intros x acc. unfold cache_row.
      apply keeps_fs_bind; [apply keeps_fs_process|].
      intros [[? ?] ?]. apply pure_keeps_fs, pure_ret. }
    unfold py_range in E1.
    apply (cache_loop _ _ (w_fs w) Henc) in E1
      as (ds & ms & Hl & Hm & Lds & Lms & Hrows); [|apply pickle_ext_refl].
    simpl in Hl, Hm. subst lat msk.
    exists (Some ds), (Some (map detach ms)).
    split; [reflexivity|]. split; [rewrite Hfs; apply pickle_ext_refl|].
    split; [|split; [discriminate|]].
    + intros _. exists ds, (map detach ms). rewrite length_map. auto.
    + intros i Hi. destruct (Hrows i) as (d & m & Hd & Hm & Hrow); [lia|].
      exists d, m, (detach m). split; [|split; [reflexivity|exact Hrow]].
      unfold cache_holds. simpl. rewrite Hmode.
      exists ds, (map detach ms). repeat split.
      * now apply py_index_lookup.
      * apply py_index_lookup. now rewrite list_lookup_fmap, Hm.
  - apply bind_Ok in E as ([] & w1 & E1 & E).
    apply ret_inv in E as [Hs ->]. injection Hs as ->.
    unfold py_range in E1.
    apply (store_loop _ _ (w_fs w) Henc) in E1
      as (Hext & _ & Hrows); [|apply pickle_ext_refl].
    exists None, None.
    split; [reflexivity|]. split; [exact Hext|]. split; [discriminate|].
    split; [auto|].
    intros i Hi. destruct (Hrows i) as (d & m & Hd & Hm & Hrow); [lia|].
    exists d, m, m. split; [|split; [reflexivity|exact Hrow]].
    unfold cache_holds. simpl. rewrite Hmode. auto.
Qed.

Lemma logs_calls_eq {A} (m : Py A) (n n' : nat) :
  n = n' -> logs_calls m n -> logs_calls m n'.
Proof. now intros ->. Qed.

(** The eager pass calls the encoder once per row. *)
Lemma logs_calls_eager_pass self : logs_calls (eager_pass self) (__len__ self).
Proof.
  unfold eager_pass. destruct (self_do_cache self).
  - apply (logs_calls_eq _ (length (py_range (__len__ self)) + 0)%nat);
      [rewrite py_range_length; lia|].
    apply logs_calls_bind.
    + apply logs_calls_for_each. intros x acc. unfold cache_row.
      apply (logs_calls_bind _ _ 1 0); [apply logs_calls_process|].
      intros [[? ?] ?]. apply pure_logs_none, pure_ret.
    + intros [? ?]. apply pure_logs_none, pure_ret.
  - apply (logs_calls_eq _ (length (py_range (__len__ self)) + 0)%nat);
      [rewrite py_range_length; lia|].
    apply logs_calls_bind.
    + apply logs_calls_for_each. intros x acc. unfold store_row.
      apply (logs_calls_bind _ _ 1 0); [apply logs_calls_process|].
      intros [[? ?] ?].
      apply (logs_calls_bind _ _ 0 0); [apply logs_calls_torch_save|].
      intros _. apply logs_calls_torch_save.
    + intros _. apply pure_logs_none, pure_ret.
Qed.

Lemma pure_setup_bucketing a self : pure_step (setup_bucketing a self).
Proof.
  unfold setup_bucketing.
  destruct (a_aspect_ratio_bucketing a); [|apply pure_ret].
  destruct (a_train_batch_size a); [|apply pure_raise].
  apply pure_bind; [|intros ?; apply pure_ret].
  apply pure_for_each. intros x acc. apply pure_aspect_ratio_row.
Qed.

Lemma setup_bucketing_Ok a self w self' w' :
  setup_bucketing a self w = (Ok self', w') ->
  exists bm, self' = set_bucket_manager self bm /\
             (a_aspect_ratio_bucketing a = false -> bm = None) /\
             (a_aspect_ratio_bucketing a = true -> is_Some bm).
Proof.
  unfold setup_bucketing. intros E.
  destruct (a_aspect_ratio_bucketing a).
  - destruct (a_train_batch_size a) as [bsz|]; [|discriminate E].
    apply bind_Ok in E as (ar & w1 & _ & E).
    apply ret_inv in E as [Hs _]. injection Hs as ->.
    eexists. split; [reflexivity|]. split; [discriminate|]. intros _. eauto.
  - apply ret_inv in E as [Hs _]. injection Hs as ->.
    exists None. split; [reflexivity|]. split; [reflexivity|discriminate].
Qed.

Lemma read_csv_Ok p w df w' :
  pd_read_csv p w = (Ok df, w') -> w_fs w !! p = Some (FCsv df) /\ w' = w.
Proof.
  unfold pd_read_csv. destruct (w_fs w !! p) as [[]|]; intros E; inversion E; auto.
Qed.

Lemma log_event_run e w :
  log_event e w = (Ok tt, mkWorld (w_fs w) (w_rng w) (w_events w ++ [e])).
Proof. reflexivity. Qed.

(** What a successful construction leaves: the attributes, the event log,
    and a cache that holds every row of the manifest. *)
Lemma init_Ok a w self w1 :
  __init__ a w = (Ok self, w1) ->
  exists df lat msk bm,
    w_fs w !! os_path_join (a_data_dir a) "captions.csv" = Some (FCsv df) /\
    self = set_bucket_manager
             (del_vae_encoder (set_cache (init_self a df) lat msk)) bm /\
    (a_aspect_ratio_bucketing a = false -> bm = None) /\
    (a_aspect_ratio_bucketing a = true -> is_Some bm) /\
    pickle_ext (w_fs w) (w_fs w1) /\
    w_events w1 = w_events w ++ EncoderBound
                    :: repeat EncoderCalled (length (df_rows df))
                    ++ [EncoderDeleted; CudaCacheEmptied] /\
    ((length (df_rows df) <? 500)%nat = true ->
     exists ds ms, lat = Some ds /\ msk = Some ms /\
                   length ds = length (df_rows df) /\
                   length ms = length (df_rows df)) /\
    ((length (df_rows df) <? 500)%nat = false -> lat = None /\ msk = None) /\
    (forall i, (i < length (df_rows df))%nat ->
       exists d m0 ms,
         cache_holds self (w_fs w1) (Z.of_nat i) d ms /\
         detach ms = detach m0 /\
         row_cached (init_self a df) (a_vae_encoder a) (w_fs w) (Z.of_nat i) d m0).
Proof.
  intros E. unfold __init__ in E.
  apply bind_Ok in E as (df & w2 & E1 & E).
  apply read_csv_Ok in E1 as [Hcsv ->].
  apply bind_Ok in E as ([] & w3 & E2 & E).
  rewrite log_event_run in E2. injection E2 as <-.
  apply bind_Ok in E as (self1 & w4 & E3 & E).
  pose proof (logs_calls_eager_pass _ _ _ _ E3) as (k & _ & Hk & Hev).
  specialize (Hk eq_refl). subst k.
  apply (eager_pass_Ok _ (a_vae_encoder a)) in E3
    as (lat & msk & -> & Hext & Hmem & Hdisk & Hrows); [|reflexivity].
  apply bind_Ok in E as ([] & w5 & E4 & E).
  rewrite log_event_run in E4. injection E4 as <-.
  apply bind_Ok in E as ([] & w6 & E5 & E).
  rewrite log_event_run in E5. injection E5 as <-.
  pose proof (pure_setup_bucketing _ _ _ _ _ E) as [Hfs' Hev'].
  apply setup_bucketing_Ok in E as (bm & -> & Hoff & Hon).
  exists df, lat, msk, bm. simpl in *.
  split; [exact Hcsv|]. split; [reflexivity|]. split; [exact Hoff|].
  split; [exact Hon|]. split; [now rewrite Hfs'|]. split.
  - rewrite Hev', Hev. simpl. rewrite <- !app_assoc. reflexivity.
  - split; [exact Hmem|]. split; [exact Hdisk|].
    intros i Hi. destruct (Hrows i Hi) as (d & m0 & ms & Hc & Hd & Hrow).
    exists d, m0, ms. split; [|auto]. rewrite Hfs'. exact Hc.
Qed.

End Cache.

(** ** The constructed dataset *)

Section Constructed.
Context `{Libs}.

Lemma same_but_manager_refl self : same_but_manager self self.
Proof. exists (self_bucket_manager self). split; [now destruct self|reflexivity]. Qed.

Lemma same_but_manager_trans s1 s2 s3 :
  same_but_manager s1 s2 -> same_but_manager s2 s3 -> same_but_manager s1 s3.
Proof.
  intros (b1 & -> & H1) (b2 & -> & H2). exists b2. split; [reflexivity|].
  simpl in H2. now rewrite H2.
Qed.

Lemma batch_same_but_manager self w r self' w' :
  get_aspect_ratio_bucketed_batch self w = (r, self', w') ->
  same_but_manager self self'.
Proof.
  unfold get_aspect_ratio_bucketed_batch. intros E.
  destruct (self_bucket_manager self) as [bm|] eqn:Hbm.
  - destruct (bm_get_batch bm) as [[[indices resolution]|e] bm'].
    + destruct (bind _ _ w) as [r0 w0]. inversion E; subst.
      exists (Some bm'). rewrite Hbm. split; [reflexivity|]. split; eauto.
    + inversion E; subst.
      exists (Some bm'). rewrite Hbm. split; [reflexivity|]. split; eauto.
  - inversion E; subst. apply same_but_manager_refl.
Qed.

Lemma run_call_same c self w :
  same_but_manager self (fst (run_call c (self, w))).
Proof.
  destruct c; simpl; try apply same_but_manager_refl.
  destruct (get_aspect_ratio_bucketed_batch self w) as [[r self'] w'] eqn:E.
  simpl. exact (batch_same_but_manager _ _ _ _ _ E).
Qed.

(** Calls only ever replace the bucket manager by a bucket manager. *)
Lemma run_calls_same cs : forall self w,
  same_but_manager self (fst (run_calls cs (self, w))).
Proof.
  induction cs as [|c cs IH]; intros self w; simpl.
  - apply same_but_manager_refl.
  - destruct (run_call c (self, w)) as [self1 w1] eqn:E.
    eapply same_but_manager_trans; [|apply IH].
    change self1 with (fst (self1, w1)). rewrite <- E. apply run_call_same.
Qed.

Lemma run_call_fs c self w :
  w_fs (snd (run_call c (self, w))) = w_fs w.
Proof.
  destruct c; simpl; try reflexivity.
  - destruct (__getitem__ self idx bucketing_resolution w) as [r w'] eqn:E.
    exact (proj1 (pure_getitem _ _ _ _ _ _ E)).
  - unfold get_aspect_ratio_bucketed_batch.
    destruct (self_bucket_manager self) as [bm|]; [|reflexivity].
    destruct (bm_get_batch bm) as [[[indices resolution]|e] bm']; [|reflexivity].
    destruct (bind _ _ w) as [r0 w0] eqn:E. simpl.
    revert E. apply pure_keeps_fs. apply pure_bind.
    + apply pure_for_each. intros x acc. unfold batch_row. pure_tac;
        apply pure_getitem.
    + intros acc. unfold batch_return. pure_tac.
Qed.

(** No call writes a file. *)
Lemma run_calls_fs cs : forall self w,
  w_fs (snd (run_calls cs (self, w))) = w_fs w.
Proof.
  induction cs as [|c cs IH]; intros self w; simpl; [reflexivity|].
  destruct (run_call c (self, w)) as [self1 w1] eqn:E.
  rewrite IH. change w1 with (snd (self1, w1)). rewrite <- E.
  apply run_call_fs.
Qed.

Lemma init_len a w self w1 df :
  __init__ a w = (Ok self, w1) ->
  w_fs w !! os_path_join (a_data_dir a) "captions.csv" = Some (FCsv df) ->
  self_data self = df.
Proof.
  intros E Hcsv. apply init_Ok in E as (df' & lat & msk & bm & Hcsv' & -> & _).
  simpl. congruence.
Qed.


(** C9: on a dataset constructed without bucketing,
    get_aspect_ratio_bucketed_batch fails at its first statement with the
    assertion error; nothing is read and nothing changes. *)
Theorem bucketed_batch_requires_bucketing a w self w1 :
  __init__ a w = (Ok self, w1) ->
  a_aspect_ratio_bucketing a = false ->
  forall w2,
    get_aspect_ratio_bucketed_batch self w2 = (Err AssertionError, self, w2).
Proof.
  intros E Hoff w2.
  apply init_Ok in E as (df & lat & msk & bm & _ & -> & Hbm & _).
  rewrite (Hbm Hoff). reflexivity.
Qed.

(** Without the attribute tokenizer_2 the method cannot return. *)
Lemma batch_without_tokenizer_attr self w :
  self_tokenizer_2 self = Unset ->
  is_ok (fst (fst (get_aspect_ratio_bucketed_batch self w))) = false /\
  (self_bucket_manager self = None ->
   get_aspect_ratio_bucketed_batch self w = (Err AssertionError, self, w)) /\
  (forall bm idx indices res bm',
     self_bucket_manager self = Some bm ->
     bm_get_batch bm = (Ok (idx :: indices, res), bm') ->
     get_aspect_ratio_bucketed_batch self w
     = (Err (AttributeError "tokenizer_2"), set_bucket_manager self (Some bm'), w)).
Proof.
  intros Htok. unfold get_aspect_ratio_bucketed_batch.
  split; [|split].
  - destruct (self_bucket_manager self) as [bm|]; [|reflexivity].
    destruct (bm_get_batch bm) as [[[[|idx indices] res]|e] bm']; try reflexivity.
    simpl. unfold bind at 1. unfold batch_row at 1. unfold bind at 1.
    unfold get_tokenizer_2. simpl. rewrite Htok. reflexivity.
  - intros ->. reflexivity.
  - intros bm idx indices res bm' -> ->.
    simpl. unfold bind at 1. unfold batch_row at 1. unfold bind at 1.
    unfold get_tokenizer_2. simpl. rewrite Htok. reflexivity.
Qed.

(** C3, amended: on a dataset produced by the constructor, whatever calls
    were made on it since, get_aspect_ratio_bucketed_batch never returns a
    batch.  Without bucketing it fails with the assertion error; with
    bucketing, as soon as the bucket manager hands out a first index, it
    fails with the attribute error on tokenizer_2, before any row is read. *)
Theorem bucketed_batch_never_returns a w self w1 :
  __init__ a w = (Ok self, w1) ->
  forall cs,
    let st := run_calls cs (self, w1) in
    is_ok (fst (fst (get_aspect_ratio_bucketed_batch (fst st) (snd st)))) = false /\
    (a_aspect_ratio_bucketing a = false ->
     get_aspect_ratio_bucketed_batch (fst st) (snd st)
     = (Err AssertionError, fst st, snd st)) /\
    (a_aspect_ratio_bucketing a = true ->
     exists bm, self_bucket_manager (fst st) = Some bm /\
       forall idx indices res bm',
         bm_get_batch bm = (Ok (idx :: indices, res), bm') ->
         get_aspect_ratio_bucketed_batch (fst st) (snd st)
         = (Err (AttributeError "tokenizer_2"),
            set_bucket_manager (fst st) (Some bm'), snd st)).
Proof.
  intros E cs st.
  apply init_Ok in E as (df & lat & msk & bm & _ & -> & Hoff & Hon & _).
  destruct (run_calls_same cs
              (set_bucket_manager
                 (del_vae_encoder (set_cache (init_self a df) lat msk)) bm) w1)
    as (bm1 & Hst & Hbm1).
  fold st in Hst. simpl in Hbm1.
  assert (Htok : self_tokenizer_2 (fst st) = Unset) by now rewrite Hst.
  assert (Hmgr : self_bucket_manager (fst st) = bm1) by now rewrite Hst.
  destruct (batch_without_tokenizer_attr (fst st) (snd st) Htok) as (Hnever & Hnone & Hsome).
  split; [exact Hnever|]. split.
  - intros Hflag. apply Hnone. rewrite Hmgr.
    rewrite (Hoff Hflag) in Hbm1. destruct bm1 as [b|]; [|reflexivity].
    destruct Hbm1 as [Hbad _]. destruct Hbad as [x Hx]; [eauto|discriminate].
  - intros Hflag. destruct (proj2 Hbm1 (Hon Hflag)) as [b ->].
    exists b. split; [exact Hmgr|].
    intros idx indices res bm' Hget. exact (Hsome _ _ _ _ _ Hmgr Hget).
Qed.

Lemma fold_replace_columnwise (m : list (string * string)) :
  forall caps : list (option string),
    fold_left (fun caps kv =>
                 map (option_map (str_replace (str_lower (fst kv)) (snd kv))) caps)
              m caps
    = map (option_map
             (fun s => fold_left (fun s kv => str_replace (str_lower (fst kv)) (snd kv) s)
                                 m s))
          caps.
Proof.
  induction m as [|kv m IH]; intros caps; simpl.
  - induction caps as [|[c|] caps IHc]; simpl; congruence.
  - rewrite IH, map_map. apply map_ext. intros [c|]; reflexivity.
Qed.

(** The column-wise code computes the specified caption of every row. *)
Lemma prepare_captions_spec m raws :
  prepare_captions m raws = map (spec_caption m) raws.
Proof.
  unfold prepare_captions. rewrite fold_replace_columnwise, !map_map.
  apply map_ext. intros [c|]; reflexivity.
Qed.

(** Every row of a constructed dataset can be read, in either mode. *)
Lemma getitem_after_init a w self w1 (i : nat) :
  __init__ a w = (Ok self, w1) ->
  (i < __len__ self)%nat ->
  exists row d m0,
    df_rows (self_data self) !! i = Some row /\
    row_cached (init_self a (self_data self)) (a_vae_encoder a) (w_fs w)
               (Z.of_nat i) d m0 /\
    forall r w2,
      self_do_cache self = true \/ w_fs w2 = w_fs w1 ->
      __getitem__ self (Z.of_nat i) r w2 =
        (Ok (spec_caption (a_substitute_caption_map a) (row_caption row),
             detach (squeeze (mul_scalar (fst (dist_sample d (w_rng w2)))
                                         (enc_scaling_factor (a_vae_encoder a)))),
             detach m0),
         mkWorld (w_fs w2) (snd (dist_sample d (w_rng w2))) (w_events w2)).
Proof.
  intros E Hi.
  apply init_Ok in E
    as (df & lat & msk & bm & _ & -> & _ & _ & _ & _ & _ & _ & Hrows).
  unfold __len__ in Hi. simpl in Hi.
  destruct (Hrows i Hi) as (d & m0 & ms & Hc & Hd & Hrow).
  destruct (lookup_lt_is_Some_2 (df_rows df) i Hi) as [row Hrow_i].
  exists row, d, m0. simpl. split; [exact Hrow_i|]. split; [exact Hrow|].
  intros r w2 Hw2. rewrite <- Hd.
  assert (Hcap : series_get
                   (self_captions
                      (set_bucket_manager
                         (del_vae_encoder (set_cache (init_self a df) lat msk)) bm))
                   (Z.of_nat i)
                 = Ok (spec_caption (a_substitute_caption_map a) (row_caption row))).
  { simpl. apply series_get_lookup.
    rewrite prepare_captions_spec, !list_lookup_fmap, Hrow_i. reflexivity. }
  exact (getitem_cached _ _ _ _ _ r w2 _ Hc Hcap Hw2).
Qed.

(** C5: for every valid index, in either storage mode, the latent that
    [__getitem__] returns is a fresh draw from the distribution cached for
    that row (the encoding of the row's image at the configured size), each
    entry multiplied by the scaling factor, with the dimensions of size one
    removed and gradient tracking off. *)
Theorem latent_is_scaled_sample a w self w1 idx :
  __init__ a w = (Ok self, w1) ->
  0 <= idx < Z.of_nat (__len__ self) ->
  exists d,
    row_latent_dist (a_vae_encoder a) self (w_fs w) idx = Some d /\
    forall r w2,
      self_do_cache self = true \/ w_fs w2 = w_fs w1 ->
      let draw := fst (dist_sample d (w_rng w2)) in
      let scaling_factor := enc_scaling_factor (a_vae_encoder a) in
      exists caption mask w3,
        __getitem__ self idx r w2
        = (Ok (caption, detach (squeeze (mul_scalar draw scaling_factor)), mask), w3) /\
        t_data (detach (squeeze (mul_scalar draw scaling_factor)))
        = map (fun x => s_mul x scaling_factor) (t_data draw) /\
        t_shape (detach (squeeze (mul_scalar draw scaling_factor)))
        = List.filter (fun n => negb (Nat.eqb n 1)) (t_shape draw) /\
        t_requires_grad (detach (squeeze (mul_scalar draw scaling_factor))) = false.
Proof.
  intros E Hidx.
  destruct (getitem_after_init a w self w1 (Z.to_nat idx) E) as (row & d & m0 & _ & Hrow & Hget);
    [lia|].
  rewrite Z2Nat.id in Hrow, Hget by lia.
  exists d. split.
  - destruct Hrow as [Hd _].
    apply init_Ok in E as (df & lat & msk & bm & _ & -> & _). exact Hd.
  - intros r w2 Hw2 draw scaling_factor.
    eexists _, _, _. split; [exact (Hget r w2 Hw2)|].
    repeat split; reflexivity.
Qed.

Lemma numel_squeeze (shape : list nat) : numel (squeeze_shape shape) = numel shape.
Proof.
  induction shape as [|n shape IH]; [reflexivity|].
  unfold squeeze_shape in *. simpl.
  destruct (Nat.eqb_spec n 1) as [->|Hn]; simpl.
  - rewrite IH. unfold numel. simpl. lia.
  - unfold numel in *. simpl. now rewrite IH.
Qed.

Lemma row_latent_dist_encoded enc self fs idx d :
  row_latent_dist enc self fs idx = Some d -> exists x, d = enc_encode enc x.
Proof.
  unfold row_latent_dist.
  destruct (series_get _ _); [|discriminate].
  destruct (fs !! _) as [[]|]; try discriminate.
  destruct (py_index _ 0); [|discriminate].
  destruct (py_index _ 1); [|discriminate].
  intros [= <-]. eauto.
Qed.

(** C2, amended: when the manifest has no mask_path column, for every valid
    index the mask that [__getitem__] returns has the shape of the returned
    latent and every entry equal to one. *)
Theorem mask_of_ones_without_mask_column a w self w1 idx :
  sample_shape_fixed (a_vae_encoder a) ->
  __init__ a w = (Ok self, w1) ->
  df_mask_column (self_data self) = false ->
  0 <= idx < Z.of_nat (__len__ self) ->
  forall r w2,
    self_do_cache self = true \/ w_fs w2 = w_fs w1 ->
    exists caption latent mask w3,
      __getitem__ self idx r w2 = (Ok (caption, latent, mask), w3) /\
      t_shape mask = t_shape latent /\
      t_data mask = repeat s_one (numel (t_shape mask)).
Proof.
  intros Hshape E Hcol Hidx r w2 Hw2.
  destruct (getitem_after_init a w self w1 (Z.to_nat idx) E)
    as (row & d & m0 & _ & Hrow & Hget); [lia|].
  rewrite Z2Nat.id in Hrow, Hget by lia.
  destruct Hrow as (Hd & (g & _ & Hmask) & _).
  assert (Hnone : self_mask_path (init_self a (self_data self)) = None)
    by (simpl; now rewrite Hcol).
  specialize (Hmask Hnone). cbv zeta in Hmask.
  apply row_latent_dist_encoded in Hd as [x ->].
  eexists _, _, _, _. split; [exact (Hget r w2 Hw2)|].
  subst m0. simpl. split.
  - f_equal. apply Hshape.
  - now rewrite numel_squeeze.
Qed.


(** C7, amended: a read at index N, the number of rows, returns no value
    in either mode.  In memory it fails with the list's IndexError and
    changes nothing.  On disk it fails too: with FileNotFoundError for the
    latent file of index N when there is no such file. *)
Theorem read_at_length_fails a w self w1 :
  __init__ a w = (Ok self, w1) ->
  forall r w2,
    let N := Z.of_nat (__len__ self) in
    is_ok (fst (__getitem__ self N r w2)) = false /\
    (self_do_cache self = true ->
     __getitem__ self N r w2 = (Err IndexError, w2)) /\
    (self_do_cache self = false ->
     w_fs w2 !! latent_file (self_data_dir self) N = None ->
     __getitem__ self N r w2
     = (Err (FileNotFoundError (latent_file (self_data_dir self) N)), w2)).
Proof.
  intros E r w2 N.
  apply init_Ok in E
    as (df & lat & msk & bm & _ & -> & _ & _ & _ & _ & Hmem & Hdisk & _).
  subst N. unfold __len__, __getitem__. simpl.
  assert (Hcap : series_get
                   (prepare_captions (a_substitute_caption_map a)
                      (map row_caption (df_rows df)))
                   (Z.of_nat (length (df_rows df))) = Err KeyError).
  { assert (Hlen : length (prepare_captions (a_substitute_caption_map a)
                             (map row_caption (df_rows df)))
                   = length (df_rows df))
      by (rewrite prepare_captions_spec; now rewrite !length_map).
    rewrite <- Hlen. apply series_get_at_len. }
  destruct (length (df_rows df) <? 500)%nat eqn:Hmode.
  - destruct (Hmem eq_refl) as (ds & ms & -> & -> & Lds & Lms).
    assert (Hidx : py_index ds (Z.of_nat (length (df_rows df))) = Err IndexError)
      by (rewrite <- Lds; apply py_index_at_len).
    match goal with
    | |- context [is_ok (fst (?m w2))] =>
        assert (Hrun : m w2 = (Err IndexError, w2))
    end.
    { unfold bind at 1. simpl. unfold bind at 1. unfold lift at 1.
      now rewrite Hidx. }
    rewrite Hrun. split; [reflexivity|]. split; [reflexivity|discriminate].
  - split; [|split; [discriminate|]].
    + unfold bind at 1. unfold torch_load at 1.
      destruct (w_fs w2 !! _) as [[| |o]|]; try reflexivity.
      unfold bind at 1.
      destruct (obj_sample o w2) as [[smp|e] w3] eqn:Es; [|reflexivity].
      unfold bind at 1. unfold torch_load at 1.
      destruct (w_fs w3 !! _) as [[| |o']|]; try reflexivity.
      unfold bind at 1. unfold lift at 1. rewrite Hcap. reflexivity.
    + intros _ Hnone. unfold bind at 1. unfold torch_load at 1.
      rewrite Hnone. reflexivity.
Qed.

Lemma read_csv_run p w df :
  w_fs w !! p = Some (FCsv df) -> pd_read_csv p w = (Ok df, w).
Proof. unfold pd_read_csv. now intros ->. Qed.


(** C8, amended: with tokenizer_2 bound to None, the statements after the
    loop concatenate the three lists and return
    ((tok1, None), vae_latents, masks): the slot of the second tokenizer is
    there and holds None. *)
Theorem batch_return_keeps_second_slot {S} self acc tok1 vae_latents masks (s : S) :
  self_tokenizer_2 self = Bound None ->
  torch_cat (l_tok1 acc) = Ok tok1 ->
  torch_cat (l_vae_latents acc) = Ok vae_latents ->
  torch_cat (l_masks acc) = Ok masks ->
  batch_return self acc s
  = (Ok (VTuple [VTuple [tok1; VNone]; vae_latents; masks]), s).
Proof.
  intros Htok H1 H2 H3. unfold batch_return, get_tokenizer_2.
  rewrite H1, H2, H3, Htok. reflexivity.
Qed.

(** The resolution argument of [__getitem__] has no effect. *)
Lemma getitem_ignores_resolution self idx r w :
  __getitem__ self idx (Some r) w = __getitem__ self idx None w.
Proof. reflexivity. Qed.

End Constructed.

(** ** The toy directory *)

Section Concrete.
#[local] Existing Instance toy_numeric.
#[local] Existing Instance toy_libs.

(** When the constructor succeeds, [toy_built] is what it returns. *)
Lemma toy_built_ok (bucketing : bool) (n : nat) :
  is_ok (fst (__init__ (toy_args bucketing) (toy_world n))) = true ->
  __init__ (toy_args bucketing) (toy_world n)
  = (Ok (fst (toy_built bucketing n)), snd (toy_built bucketing n)).
Proof.
  unfold toy_built.
  destruct (__init__ (toy_args bucketing) (toy_world n)) as [[self|e] w1];
    [reflexivity|discriminate].
Qed.

(** The manifest of the toy directory. *)
Lemma toy_manifest (bucketing : bool) (n : nat) :
  w_fs (toy_world n) !! os_path_join (a_data_dir (toy_args bucketing)) "captions.csv"
  = Some (FCsv (mkFrame (map toy_row (seq 0 n)) false)).
Proof. apply lookup_insert_eq. Qed.

(** A successful run of the constructor, named. *)
Lemma toy_constructs (bucketing : bool) (n : nat) :
  is_ok (fst (__init__ (toy_args bucketing) (toy_world n))) = true ->
  exists self w1, __init__ (toy_args bucketing) (toy_world n) = (Ok self, w1).
Proof.
  destruct (__init__ (toy_args bucketing) (toy_world n)) as [[self|e] w1];
    [eauto|discriminate].
Defined.

(** Run the constructor on the toy directory of two rows. *)
Ltac construct_toy b self w1 E :=
  destruct (toy_constructs b 2 ltac:(vm_compute; reflexivity)) as (self & w1 & E).


(** The boundary: 499 rows are kept in memory, 500 go to disk. *)
Lemma storage_mode_boundary :
  (exists self w1,
     __init__ (toy_args false) (toy_world 499) = (Ok self, w1) /\
     __len__ self = 499%nat /\ self_do_cache self = true) /\
  (exists self w1,
     __init__ (toy_args false) (toy_world 500) = (Ok self, w1) /\
     __len__ self = 500%nat /\ self_do_cache self = false).
Proof.
  split.
  - exists (fst (toy_built false 499)), (snd (toy_built false 499)).
    split; [apply toy_built_ok; vm_compute; reflexivity|].
    split; vm_compute; reflexivity.
  - exists (fst (toy_built false 500)), (snd (toy_built false 500)).
    split; [apply toy_built_ok; vm_compute; reflexivity|].
    split; vm_compute; reflexivity.
Qed.

(** C9 on the toy directory, built without bucketing. *)
Lemma bucketed_batch_requires_bucketing_witness :
  exists self w1,
    __init__ (toy_args false) (toy_world 2) = (Ok self, w1) /\
    get_aspect_ratio_bucketed_batch self w1 = (Err AssertionError, self, w1).
Proof.
  construct_toy false self w1 E.
  exists self, w1. split; [exact E|].
  exact (bucketed_batch_requires_bucketing _ _ _ _ E eq_refl w1).
Defined.

(** C3, amended, on the toy directory, built with bucketing. *)
Lemma bucketed_batch_never_returns_witness :
  exists self w1,
    __init__ (toy_args true) (toy_world 2) = (Ok self, w1) /\
    is_ok (fst (fst (get_aspect_ratio_bucketed_batch self w1))) = false.
Proof.
  construct_toy true self w1 E.
  exists self, w1. split; [exact E|].
  exact (proj1 (bucketed_batch_never_returns _ _ _ _ E [])).
Defined.

(** C5 on the toy directory: the read of row 0. *)
Lemma latent_is_scaled_sample_witness :
  exists self w1 d,
    __init__ (toy_args false) (toy_world 2) = (Ok self, w1) /\
    row_latent_dist toy_encoder self (toy_fs 2) 0 = Some d /\
    exists caption mask w3,
      __getitem__ self 0 None w1
      = (Ok (caption,
             detach (squeeze (mul_scalar (fst (dist_sample d (w_rng w1))) 3)),
             mask), w3).
Proof.
  construct_toy false self w1 E.
  assert (Hlen : 0 <= 0 < Z.of_nat (__len__ self)).
  { unfold __len__. rewrite (init_len _ _ _ _ _ E (toy_manifest false 2)).
    simpl. lia. }
  destruct (latent_is_scaled_sample _ _ _ _ 0 E Hlen) as (d & Hd & Hget).
  exists self, w1, d. split; [exact E|]. split; [exact Hd|].
  destruct (Hget None w1 (or_intror eq_refl)) as (caption & mask & w3 & Hrun & _).
  exists caption, mask, w3. exact Hrun.
Defined.

(** The toy encoder's samples have the shape of its distribution. *)
Lemma toy_sample_shape_fixed : sample_shape_fixed toy_encoder.
Proof. intros x g g'. reflexivity. Defined.

(** C2, amended, on the toy directory (no mask column): the read of row 1. *)
Lemma mask_of_ones_witness :
  exists self w1 caption latent mask w3,
    __init__ (toy_args false) (toy_world 2) = (Ok self, w1) /\
    __getitem__ self 1 None w1 = (Ok (caption, latent, mask), w3) /\
    t_shape mask = t_shape latent /\
    t_data mask = repeat 1 (numel (t_shape mask)).
Proof.
  construct_toy false self w1 E.
  pose proof (init_len _ _ _ _ _ E (toy_manifest false 2)) as Hdata.
  assert (Hcol : df_mask_column (self_data self) = false) by now rewrite Hdata.
  assert (Hlen : 0 <= 1 < Z.of_nat (__len__ self)).
  { unfold __len__. rewrite Hdata. simpl. lia. }
  destruct (mask_of_ones_without_mask_column (toy_args false) _ _ _ 1
              toy_sample_shape_fixed E Hcol Hlen None w1 (or_intror eq_refl))
    as (caption & latent & mask & w3 & Hrun & Hshape & Hones).
  exists self, w1, caption, latent, mask, w3.
  split; [exact E|]. split; [exact Hrun|]. split; [exact Hshape|exact Hones].
Defined.


(** C7, amended, on the toy directory: the read at index 2 of two rows. *)
Lemma read_at_length_fails_witness :
  exists self w1,
    __init__ (toy_args false) (toy_world 2) = (Ok self, w1) /\
    is_ok (fst (__getitem__ self (Z.of_nat (__len__ self)) None w1)) = false.
Proof.
  construct_toy false self w1 E.
  exists self, w1. split; [exact E|].
  exact (proj1 (read_at_length_fails _ _ _ _ E None w1)).
Defined.

(** C8, amended, on lists of one tensor each. *)
Lemma batch_return_witness :
  batch_return toy_self_no_tokenizer_2 toy_lists tt
  = (Ok (VTuple [VTuple [VTensor (mkTensor Float32 [1; 3]%nat [1; 2; 3] false);
                         VNone];
                 VTensor (mkTensor Float32 [1; 4; 2; 2]%nat (repeat 21 16) false);
                 VTensor (mkTensor Float32 [1; 4; 2; 2]%nat (repeat 1 16) false)]),
     tt).
Proof.
  apply (batch_return_keeps_second_slot toy_self_no_tokenizer_2 toy_lists);
    reflexivity.
Defined.


(** C3 as stated fails: a dataset built without bucketing answers
    get_aspect_ratio_bucketed_batch with the assertion error, which is not
    an attribute error. *)
Lemma bucketed_batch_fails_with_assertion :
  exists self w1,
    __init__ (toy_args false) (toy_world 2) = (Ok self, w1) /\
    fst (fst (get_aspect_ratio_bucketed_batch self w1)) = Err AssertionError /\
    ~ (exists name,
         fst (fst (get_aspect_ratio_bucketed_batch self w1))
         = Err (AttributeError name)).
Proof.
  exists (fst (toy_built false 2)), (snd (toy_built false 2)).
  split; [apply toy_built_ok; vm_compute; reflexivity|].
  assert (E : fst (fst (get_aspect_ratio_bucketed_batch
                          (fst (toy_built false 2)) (snd (toy_built false 2))))
              = Err AssertionError) by (vm_compute; reflexivity).
  split; [exact E|]. intros [name Hname].
  pose proof (eq_trans (eq_sym E) Hname) as Hbad. discriminate Hbad.
Qed.

(** C2 as stated fails: with a mask_path column whose second cell is empty
    (the first row supplies a mask), the constructor raises TypeError; there
    is no dataset to serve a mask of ones for the second row. *)
Lemma mask_cell_missing_aborts_construction :
  fst (__init__ (toy_args false) toy_world_masks) = Err TypeError /\
  ~ (exists self w1, __init__ (toy_args false) toy_world_masks = (Ok self, w1)).
Proof.
  assert (E : fst (__init__ (toy_args false) toy_world_masks) = Err TypeError)
    by (vm_compute; reflexivity).
  split; [exact E|]. intros (self & w1 & Hok). rewrite Hok in E. discriminate E.
Qed.

(** C7 as stated fails: on a dataset of 500 rows (on-disk mode) the read at
    index 500 fails with FileNotFoundError for 500_vae_latent.pt, which is
    not an out-of-bounds report. *)
Lemma read_at_length_on_disk_reports_missing_file :
  exists self w1,
    __init__ (toy_args false) (toy_world 500) = (Ok self, w1) /\
    __len__ self = 500%nat /\
    self_do_cache self = false /\
    fst (__getitem__ self 500 None w1)
    = Err (FileNotFoundError "data/500_vae_latent.pt") /\
    is_out_of_bounds (FileNotFoundError "data/500_vae_latent.pt") = false.
Proof.
  exists (fst (toy_built false 500)), (snd (toy_built false 500)).
  split; [apply toy_built_ok; vm_compute; reflexivity|].
  repeat split; vm_compute; reflexivity.
Qed.

(** C8 as stated fails: with tokenizer_2 set to None on a constructed
    dataset the method returns no batch (it stops at unsqueeze on the
    caption string), and the batch its return statement builds has the
    second-tokenizer slot, holding None. *)
Lemma batch_return_includes_none_slot :
  fst (fst (get_aspect_ratio_bucketed_batch
              (set_tokenizer_2 (fst (toy_built true 2)) None)
              (snd (toy_built true 2))))
  = Err (AttributeError "unsqueeze") /\
  exists batch,
    batch_return toy_self_no_tokenizer_2 toy_lists tt = (Ok batch, tt) /\
    second_slot_omitted batch = false.
Proof.
  split; [vm_compute; reflexivity|].
  eexists. split; reflexivity.
Qed.


(** C1: a read with a resolution override returns what the read without it
    returns.  On the toy directory, configured at 8 x 8, the read of row 0
    at 16 x 16 returns a latent of shape [4; 2; 2], the encoding at 8 x 8,
    where [_process] at 16 x 16 gives shape [4; 4; 4]. *)
Theorem getitem_resolution_override_ignored :
  exists self w1,
    __init__ (toy_args false) (toy_world 2) = (Ok self, w1) /\
    __getitem__ self 0 (Some (16, 16)%nat) w1 = __getitem__ self 0 None w1 /\
    returned_latent_shape (fst (__getitem__ self 0 (Some (16, 16)%nat) w1))
    = Some [4; 2; 2]%nat /\
    processed_latent_shape
      (fst (_process (init_self (toy_args false) (self_data self)) 0
                     (Some (16, 16)%nat) (toy_world 2)))
    = Some [4; 4; 4]%nat.
Proof.
  exists (fst (toy_built false 2)), (snd (toy_built false 2)).
  split; [apply toy_built_ok; vm_compute; reflexivity|].
  split; [reflexivity|]. split; vm_compute; reflexivity.
Qed.

End Concrete.

(** ** Further properties of the class *)

Section Further.
Context `{Libs}.

Lemma batch_row_fails self resolution idx acc w :
  is_ok (fst (batch_row self resolution idx acc w)) = false.
Proof.
  unfold batch_row, get_tokenizer_2, bind, lift.
  destruct (self_tokenizer_2 self) as [|[tk|]]; simpl; [reflexivity| |].
  - destruct (__getitem__ self idx (Some resolution) w) as [[[[t12 v] m]|e] w'];
      [|reflexivity].
    simpl. destruct t12 as [|c1 [|c2 [|c3 t]]]; reflexivity.
  - destruct (__getitem__ self idx (Some resolution) w) as [[[[t1 v] m]|e] w'];
      reflexivity.
Qed.

(** X13: in no state of the dataset object, whatever tokenizer_2 is bound to,
    does get_aspect_ratio_bucketed_batch return a batch. *)
Theorem bucketed_batch_never_returns_in_any_state self w :
  is_ok (fst (fst (get_aspect_ratio_bucketed_batch self w))) = false.
Proof.
  unfold get_aspect_ratio_bucketed_batch.
  destruct (self_bucket_manager self) as [bm|]; [|reflexivity].
  destruct (bm_get_batch bm) as [[[[|idx indices] resolution]|e] bm'];
    [| |reflexivity].
  - reflexivity.
  - simpl. unfold bind at 1. unfold bind at 1.
    pose proof (batch_row_fails (set_bucket_manager self (Some bm')) resolution idx
                  (mkLists [] [] [] []) w) as Hrow.
    destruct (batch_row _ _ _ _ w) as [[acc|e] w']; [discriminate Hrow|reflexivity].
Qed.

Lemma run_call_events c self w :
  w_events (snd (run_call c (self, w))) = w_events w.
Proof.
  destruct c; simpl; try reflexivity.
  - destruct (__getitem__ self idx bucketing_resolution w) as [r w'] eqn:E.
    exact (proj2 (pure_getitem _ _ _ _ _ _ E)).
  - unfold get_aspect_ratio_bucketed_batch.
    destruct (self_bucket_manager self) as [bm|]; [|reflexivity].
    destruct (bm_get_batch bm) as [[[indices resolution]|e] bm']; [|reflexivity].
    destruct (bind _ _ w) as [r0 w0] eqn:E. simpl.
    assert (Hp : pure_step
                   (bind (for_each indices
                            (batch_row (set_bucket_manager self (Some bm')) resolution)
                            (mkLists [] [] [] []))
                         (fun acc => batch_return (set_bucket_manager self (Some bm')) acc))).
    { apply pure_bind.
      - apply pure_for_each. intros x acc. unfold batch_row. pure_tac;
          apply pure_getitem.
      - intros acc. unfold batch_return. pure_tac. }
    exact (proj2 (Hp _ _ _ E)).
Qed.

(** X2: no sequence of calls of __len__, __getitem__ and
    get_aspect_ratio_bucketed_batch writes a file or logs an encoder event,
    whether the calls succeed or fail. *)
Theorem calls_leave_files_and_encoder_alone cs : forall self w,
  w_fs (snd (run_calls cs (self, w))) = w_fs w /\
  w_events (snd (run_calls cs (self, w))) = w_events w.
Proof.
  induction cs as [|c cs IH]; intros self w; simpl; [auto|].
  destruct (run_call c (self, w)) as [self1 w1] eqn:E.
  destruct (IH self1 w1) as [Hfs Hev]. rewrite Hfs, Hev.
  change w1 with (snd (self1, w1)). rewrite <- E.
  split; [apply run_call_fs|apply run_call_events].
Qed.




(** X15: a dataset is constructed only from a readable manifest in which
    every row's image file is readable in the directory as it was before
    construction, with a size of at least two entries (when there is a
    row), and, when the manifest has a mask column, a mask path in every
    row. *)
Theorem construction_needs_readable_rows a w self w1 :
  __init__ a w = (Ok self, w1) ->
  exists df,
    w_fs w !! os_path_join (a_data_dir a) "captions.csv" = Some (FCsv df) /\
    self_data self = df /\
    forall i row,
      df_rows df !! i = Some row ->
      (exists img,
         w_fs w !! os_path_join (a_data_dir a) (row_image_path row)
         = Some (FImage img)) /\
      (exists sw sh, py_index (a_size a) 0 = Ok sw /\ py_index (a_size a) 1 = Ok sh) /\
      (df_mask_column df = true -> is_Some (row_mask_path row)).
Proof.
  intros E.
  apply init_Ok in E
    as (df & lat & msk & bm & Hcsv & -> & _ & _ & _ & _ & _ & _ & Hrows).
  exists df. split; [exact Hcsv|]. split; [reflexivity|].
  intros i row Hrow.
  destruct (Hrows i (lookup_lt_Some _ _ _ Hrow)) as (d & m0 & ms & _ & _ & Hd & _ & Hmask).
  unfold row_latent_dist in Hd. simpl in Hd, Hmask.
  rewrite (series_get_lookup _ i (row_image_path row)) in Hd
    by (now rewrite list_lookup_fmap, Hrow).
  destruct (w_fs w !! os_path_join (a_data_dir a) (row_image_path row))
    as [[| img |]|]; try discriminate Hd.
  destruct (py_index (a_size a) 0) as [sw|]; [|discriminate Hd].
  destruct (py_index (a_size a) 1) as [sh|]; [|discriminate Hd].
  split; [eauto|]. split; [eauto|].
  intros Hcol. rewrite Hcol in Hmask.
  destruct (Hmask _ eq_refl) as (mp & Hmp).
  rewrite Nat2Z.id, list_lookup_fmap, Hrow in Hmp. injection Hmp as ->. eauto.
Qed.

(** X10: two reads of a valid index return the same caption and the same
    mask; the latents are equal when the generator states are. *)
Theorem reads_are_repeatable a w self w1 idx :
  __init__ a w = (Ok self, w1) ->
  0 <= idx < Z.of_nat (__len__ self) ->
  forall r r' w2 w3,
    self_do_cache self = true \/ (w_fs w2 = w_fs w1 /\ w_fs w3 = w_fs w1) ->
    exists caption mask latent2 latent3 w2' w3',
      __getitem__ self idx r w2 = (Ok (caption, latent2, mask), w2') /\
      __getitem__ self idx r' w3 = (Ok (caption, latent3, mask), w3') /\
      (w_rng w2 = w_rng w3 -> latent2 = latent3 /\ w_rng w2' = w_rng w3').
Proof.
  intros E Hidx r r' w2 w3 Hw.
  destruct (getitem_after_init a w self w1 (Z.to_nat idx) E)
    as (row & d & m0 & _ & _ & Hget); [lia|].
  rewrite Z2Nat.id in Hget by lia.
  eexists _, _, _, _, _, _.
  split; [apply Hget; tauto|]. split; [apply Hget; tauto|].
  intros ->. split; reflexivity.
Qed.

(** X12: a row whose caption cell is empty is served with the empty string. *)
Theorem missing_caption_is_served_empty a w self w1 (i : nat) row :
  __init__ a w = (Ok self, w1) ->
  df_rows (self_data self) !! i = Some row ->
  row_caption row = None ->
  forall r w2,
    self_do_cache self = true \/ w_fs w2 = w_fs w1 ->
    exists latent mask w3,
      __getitem__ self (Z.of_nat i) r w2 = (Ok ("", latent, mask), w3).
Proof.
  intros E Hrow Hcap r w2 Hw2.
  destruct (getitem_after_init a w self w1 i E)
    as (row' & d & m0 & Hrow' & _ & Hget).
  { unfold __len__. now apply lookup_lt_Some in Hrow. }
  rewrite Hrow in Hrow'. injection Hrow' as <-.
  specialize (Hget r w2 Hw2). rewrite Hcap in Hget. simpl in Hget.
  eexists _, _, _. exact Hget.
Qed.

Lemma series_get_outside {A} (l : list A) (i : Z) :
  ~ (0 <= i < Z.of_nat (length l)) -> series_get l i = Err KeyError.
Proof.
  intros Hi. unfold series_get.
  destruct (0 <=? i) eqn:E1; [|reflexivity].
  destruct (i <? Z.of_nat (length l)) eqn:E2; [|reflexivity].
  apply Z.leb_le in E1. apply Z.ltb_lt in E2. lia.
Qed.

Lemma py_index_outside {A} (l : list A) (i : Z) :
  Z.of_nat (length l) <= i \/ i < - Z.of_nat (length l) ->
  py_index l i = Err IndexError.
Proof.
  intros Hi. unfold py_index.
  destruct (i <? 0) eqn:E0.
  - apply Z.ltb_lt in E0.
    destruct (0 <=? i + Z.of_nat (length l)) eqn:E1; [|reflexivity].
    apply Z.leb_le in E1. lia.
  - apply Z.ltb_ge in E0.
    destruct (i <? Z.of_nat (length l)) eqn:E2; [|now rewrite andb_false_r].
    apply Z.ltb_lt in E2. lia.
Qed.

Lemma py_index_negative {A} (l : list A) (i : Z) :
  - Z.of_nat (length l) <= i < 0 ->
  py_index l i = py_index l (i + Z.of_nat (length l)).
Proof.
  intros Hi. unfold py_index.
  destruct (i <? 0) eqn:E0; [|apply Z.ltb_ge in E0; lia].
  destruct (i + Z.of_nat (length l) <? 0) eqn:E1; [apply Z.ltb_lt in E1; lia|].
  reflexivity.
Qed.

(** X1: a read at an index outside 0..N-1 returns no value, in either mode.
    In memory an index at or above N or below -N fails with IndexError and
    changes nothing; an index from -N to -1 is taken from the end of the
    list, a sample of that row is drawn, and the read then fails with
    KeyError at the caption. *)
Theorem out_of_range_read_fails a w self w1 :
  __init__ a w = (Ok self, w1) ->
  forall idx r w2,
    let N := Z.of_nat (__len__ self) in
    ~ (0 <= idx < N) ->
    is_ok (fst (__getitem__ self idx r w2)) = false /\
    (self_do_cache self = true ->
     (N <= idx \/ idx < - N ->
      __getitem__ self idx r w2 = (Err IndexError, w2)) /\
     (- N <= idx < 0 ->
      exists d,
        row_latent_dist (a_vae_encoder a) self (w_fs w) (idx + N) = Some d /\
        __getitem__ self idx r w2
        = (Err KeyError,
           mkWorld (w_fs w2) (snd (dist_sample d (w_rng w2))) (w_events w2)))).
Proof.
  intros E idx r w2 N Hout.
  apply init_Ok in E
    as (df & lat & msk & bm & _ & -> & _ & _ & _ & _ & Hmem & Hdisk & Hrows).
  subst N. unfold __len__ in *. simpl in Hout. simpl self_do_cache. simpl self_data.
  assert (Hlen : length (prepare_captions (a_substitute_caption_map a)
                           (map row_caption (df_rows df)))
                 = length (df_rows df))
    by (rewrite prepare_captions_spec; now rewrite !length_map).
  assert (Hcap : series_get
                   (prepare_captions (a_substitute_caption_map a)
                      (map row_caption (df_rows df))) idx = Err KeyError)
    by (apply series_get_outside; now rewrite Hlen).
  destruct (length (df_rows df) <? 500)%nat eqn:Hmode.
  - destruct (Hmem eq_refl) as (ds & ms & -> & -> & Lds & Lms).
    assert (Hfar : Z.of_nat (length (df_rows df)) <= idx
                   \/ idx < - Z.of_nat (length (df_rows df)) ->
                   __getitem__ (set_bucket_manager
                                  (del_vae_encoder
                                     (set_cache (init_self a df) (Some ds) (Some ms))) bm)
                               idx r w2 = (Err IndexError, w2)).
    { intros Hfar. unfold __getitem__. simpl. rewrite Hmode.
      unfold bind at 1. simpl. unfold bind at 1. unfold lift at 1.
      rewrite py_index_outside by (now rewrite Lds). reflexivity. }
    assert (Hneg : - Z.of_nat (length (df_rows df)) <= idx < 0 ->
              exists d,
                row_latent_dist (a_vae_encoder a)
                  (set_bucket_manager
                     (del_vae_encoder (set_cache (init_self a df) (Some ds) (Some ms))) bm)
                  (w_fs w) (idx + Z.of_nat (length (df_rows df))) = Some d /\
                __getitem__ (set_bucket_manager
                               (del_vae_encoder
                                  (set_cache (init_self a df) (Some ds) (Some ms))) bm)
                            idx r w2
                = (Err KeyError,
                   mkWorld (w_fs w2) (snd (dist_sample d (w_rng w2))) (w_events w2))).
    { intros Hneg.
      destruct (Hrows (Z.to_nat (idx + Z.of_nat (length (df_rows df)))))
        as (d & m0 & ms' & Hc & _ & Hd & _); [lia|].
      rewrite Z2Nat.id in Hc, Hd by lia.
      unfold cache_holds in Hc. simpl in Hc. rewrite Hmode in Hc.
      destruct Hc as (ds' & ms'' & [= <-] & _ & Hidx & _).
      exists d. split; [exact Hd|].
      unfold __getitem__. simpl. rewrite Hmode.
      unfold bind at 1. simpl. unfold bind at 1. unfold lift at 1.
      rewrite py_index_negative by (now rewrite Lds).
      rewrite Lds, Hidx.
      unfold bind at 1. rewrite sample_run.
      unfold bind at 1. unfold lift at 1. rewrite Hcap. reflexivity. }
    split.
    + destruct (Z_lt_ge_dec idx 0) as [Hlt|Hge].
      * destruct (Z_le_gt_dec (- Z.of_nat (length (df_rows df))) idx) as [Hin|Hfar'].
        -- destruct (Hneg (conj Hin Hlt)) as (d & _ & ->). reflexivity.
        -- rewrite Hfar by lia. reflexivity.
      * rewrite Hfar by lia. reflexivity.
    + intros _. split; assumption.
  - split; [|discriminate].
    unfold __getitem__. simpl. rewrite Hmode.
    unfold bind at 1. unfold torch_load at 1.
    destruct (w_fs w2 !! _) as [[| |o]|]; try reflexivity.
    unfold bind at 1.
    destruct (obj_sample o w2) as [[smp|e] w3] eqn:Es; [|reflexivity].
    unfold bind at 1. unfold torch_load at 1.
    destruct (w_fs w3 !! _) as [[| |o']|]; try reflexivity.
    unfold bind at 1. unfold lift at 1. rewrite Hcap. reflexivity.
Qed.

(** X6: the cache files of two different indices differ, a latent file is
    never a mask file, and both names are the index in decimal, with its
    suffix, under the data directory. *)
Theorem cache_file_names_distinct (dir : string) (i j : Z) :
  (i <> j ->
   latent_file dir i <> latent_file dir j /\ mask_file dir i <> mask_file dir j) /\
  latent_file dir i <> mask_file dir j /\
  latent_file dir i = join_prefix dir +:+ pretty i +:+ "_vae_latent.pt" /\
  mask_file dir i = join_prefix dir +:+ pretty i +:+ "_mask.pt".
Proof.
  split; [|split; [apply latent_file_not_mask_file|]].
  - intros Hne. split; intros Heq; apply Hne.
    + now apply latent_file_inj in Heq.
    + now apply mask_file_inj in Heq.
  - split; apply join_numbered.
Qed.

(** X7: with bucketing on and no batch size the constructor never returns a
    dataset; and when it would succeed without bucketing, it fails with the
    assertion error only after the whole eager pass and the release of the
    encoder, in the world that pass left. *)
Theorem bucketing_without_batch_size_fails_late a w :
  is_ok (fst (__init__ (with_bucketing a true None) w)) = false /\
  (forall self w1,
     __init__ (with_bucketing a false None) w = (Ok self, w1) ->
     __init__ (with_bucketing a true None) w = (Err AssertionError, w1)).
Proof.
  split.
  - unfold __init__.
    repeat (unfold bind at 1;
            match goal with
            | |- context [match ?m ?x with _ => _ end] =>
                destruct (m x) as [[?|?] ?]; [|reflexivity]
            end).
    reflexivity.
  - intros self w1 E. unfold __init__ in *.
    apply bind_Ok in E as (df & w2 & E1 & E).
    rewrite (bind_step _ _ _ _ _ E1).
    apply bind_Ok in E as ([] & w3 & E2 & E).
    rewrite (bind_step _ _ _ _ _ E2).
    apply bind_Ok in E as (self1 & w4 & E3 & E).
    change (init_self (with_bucketing a true None) df)
      with (init_self (with_bucketing a false None) df).
    rewrite (bind_step _ _ _ _ _ E3).
    apply bind_Ok in E as ([] & w5 & E4 & E).
    rewrite (bind_step _ _ _ _ _ E4).
    apply bind_Ok in E as ([] & w6 & E5 & E).
    rewrite (bind_step _ _ _ _ _ E5).
    apply ret_inv in E as [_ ->]. reflexivity.
Qed.

(** X8: a manifest without rows constructs: in-memory mode, two empty lists,
    no encoder call between binding and release; every read of the result
    fails with IndexError. *)
Theorem empty_manifest_constructs a w mask_column :
  w_fs w !! os_path_join (a_data_dir a) "captions.csv"
  = Some (FCsv (mkFrame [] mask_column)) ->
  (a_aspect_ratio_bucketing a = true -> is_Some (a_train_batch_size a)) ->
  exists self,
    __init__ a w
    = (Ok self,
       mkWorld (w_fs w) (w_rng w)
               (w_events w ++ [EncoderBound; EncoderDeleted; CudaCacheEmptied])) /\
    __len__ self = 0%nat /\
    self_do_cache self = true /\
    self_vae_latents self = Some [] /\
    self_masks self = Some [] /\
    (forall idx r w2, __getitem__ self idx r w2 = (Err IndexError, w2)).
Proof.
  intros Hcsv Hbsz. unfold __init__.
  rewrite (bind_step _ _ _ _ _ (read_csv_run _ _ _ Hcsv)).
  rewrite (bind_step _ _ _ _ _ (log_event_run _ _)).
  unfold eager_pass, setup_bucketing. simpl.
  unfold bind at 1. simpl. unfold bind at 1. simpl.
  unfold bind at 1. simpl. unfold bind at 1. simpl.
  destruct (a_aspect_ratio_bucketing a).
  - destruct (Hbsz eq_refl) as [bsz ->]. simpl.
    rewrite <- !app_assoc. simpl.
    eexists. split; [reflexivity|]. repeat split.
    intros idx r w2. unfold __getitem__. simpl.
    unfold bind at 1. simpl. unfold bind at 1. unfold lift at 1.
    now rewrite py_index_outside by (simpl; lia).
  - simpl. rewrite <- !app_assoc. simpl.
    eexists. split; [reflexivity|]. repeat split.
    intros idx r w2. unfold __getitem__. simpl.
    unfold bind at 1. simpl. unfold bind at 1. unfold lift at 1.
    now rewrite py_index_outside by (simpl; lia).
Qed.

Lemma keeps_fs_writes_only P {A} (m : Py A) : keeps_fs m -> writes_only P m.
Proof. intros Hm w r w' E p _. now rewrite (Hm _ _ _ E). Qed.

Lemma writes_only_bind P {A B} (m : Py A) (k : A -> Py B) :
  writes_only P m -> (forall x, writes_only P (k x)) -> writes_only P (bind m k).
Proof.
  intros Hm Hk w r w' E p Hp. unfold bind in E.
  destruct (m w) as [[x|e] w1] eqn:E1.
  - rewrite (Hk x _ _ _ E p Hp). exact (Hm _ _ _ E1 p Hp).
  - inversion E; subst. exact (Hm _ _ _ E1 p Hp).
Qed.

Lemma writes_only_torch_save (P : string -> Prop) o path :
  P path -> writes_only P (torch_save o path).
Proof.
  intros Hpath w r w' [= <- <-] p Hp. simpl.
  apply lookup_insert_ne. intros ->. contradiction.
Qed.

Lemma writes_only_for_each P {A B} (body : A -> B -> Py B) (xs : list A) :
  (forall x, In x xs -> forall acc, writes_only P (body x acc)) ->
  forall acc, writes_only P (for_each xs body acc).
Proof.
  induction xs as [|x xs IH]; intros Hb acc; simpl.
  - apply keeps_fs_writes_only, pure_keeps_fs, pure_ret.
  - apply writes_only_bind.
    + apply Hb. now left.
    + intros acc'. apply IH. intros y Hy. apply Hb. now right.
Qed.

Lemma writes_only_store_row self n idx acc :
  In idx (py_range n) ->
  writes_only (is_cache_file (self_data_dir self) n) (store_row self idx acc).
Proof.
  intros Hin. unfold py_range in Hin. apply in_map_iff in Hin as (j & <- & Hj).
  apply in_seq in Hj.
  unfold store_row. apply writes_only_bind.
  - apply keeps_fs_writes_only, keeps_fs_process.
  - intros [[d m] p]. apply writes_only_bind.
    + apply writes_only_torch_save. exists j. split; [lia|now left].
    + intros _. apply writes_only_torch_save. exists j. split; [lia|now right].
Qed.

Lemma keeps_fs_log_event e : keeps_fs (log_event e).
Proof. intros w r w' [= <- <-]. reflexivity. Qed.

Lemma keeps_fs_cache_row self idx acc : keeps_fs (cache_row self idx acc).
Proof.
  unfold cache_row. apply keeps_fs_bind; [apply keeps_fs_process|].
  intros [[? ?] ?]. apply pure_keeps_fs, pure_ret.
Qed.

(** X5: whatever its outcome, the constructor leaves every path alone that is
    not a cache file of a manifest row; with fewer than 500 rows it writes
    nothing at all; and without a readable manifest it fails with the world
    untouched. *)
Theorem construction_writes_only_cache_files a w r w1 :
  __init__ a w = (r, w1) ->
  (forall df,
     w_fs w !! os_path_join (a_data_dir a) "captions.csv" = Some (FCsv df) ->
     (forall p, ~ is_cache_file (a_data_dir a) (length (df_rows df)) p ->
                w_fs w1 !! p = w_fs w !! p) /\
     ((length (df_rows df) < 500)%nat -> w_fs w1 = w_fs w)) /\
  ((forall df, w_fs w !! os_path_join (a_data_dir a) "captions.csv" <> Some (FCsv df)) ->
   w1 = w /\ is_ok r = false).
Proof.
  intros E. split.
  - intros df Hcsv. unfold __init__ in E.
    rewrite (bind_step _ _ _ _ _ (read_csv_run _ _ _ Hcsv)) in E.
    split.
    + revert E. generalize w r w1.
      change (writes_only (is_cache_file (a_data_dir a) (length (df_rows df)))
                (bind (log_event EncoderBound)
                   (fun _ => bind (eager_pass (init_self a df))
                      (fun self => bind (log_event EncoderDeleted)
                         (fun _ => bind (log_event CudaCacheEmptied)
                            (fun _ => setup_bucketing a (del_vae_encoder self))))))).
      apply writes_only_bind; [apply keeps_fs_writes_only, keeps_fs_log_event|intros _].
      apply writes_only_bind.
      * unfold eager_pass. destruct (self_do_cache (init_self a df)).
        -- apply keeps_fs_writes_only, keeps_fs_bind.
           ++ apply keeps_fs_for_each. intros x acc. apply keeps_fs_cache_row.
           ++ intros [? ?]. apply pure_keeps_fs, pure_ret.
        -- apply writes_only_bind.
           ++ apply writes_only_for_each. intros x Hx acc.
              exact (writes_only_store_row (init_self a df) _ x acc Hx).
           ++ intros _. apply keeps_fs_writes_only, pure_keeps_fs, pure_ret.
      * intros self.
        apply writes_only_bind; [apply keeps_fs_writes_only, keeps_fs_log_event|intros _].
        apply writes_only_bind; [apply keeps_fs_writes_only, keeps_fs_log_event|intros _].
        apply keeps_fs_writes_only, pure_keeps_fs, pure_setup_bucketing.
    + intros Hsmall. revert E. generalize w r w1.
      change (keeps_fs
                (bind (log_event EncoderBound)
                   (fun _ => bind (eager_pass (init_self a df))
                      (fun self => bind (log_event EncoderDeleted)
                         (fun _ => bind (log_event CudaCacheEmptied)
                            (fun _ => setup_bucketing a (del_vae_encoder self))))))).
      apply keeps_fs_bind; [apply keeps_fs_log_event|intros _].
      apply keeps_fs_bind.
      * unfold eager_pass. simpl self_do_cache.
        destruct (Nat.ltb_spec (length (df_rows df)) 500) as [_|Hge]; [|lia].
        apply keeps_fs_bind.
        -- apply keeps_fs_for_each. intros x acc. apply keeps_fs_cache_row.
        -- intros [? ?]. apply pure_keeps_fs, pure_ret.
      * intros self.
        apply keeps_fs_bind; [apply keeps_fs_log_event|intros _].
        apply keeps_fs_bind; [apply keeps_fs_log_event|intros _].
        apply pure_keeps_fs, pure_setup_bucketing.
  - intros Hno. unfold __init__, bind, pd_read_csv in E.
    destruct (w_fs w !! os_path_join (a_data_dir a) "captions.csv") as [[df| |]|] eqn:Hcsv;
      try (inversion E; subst; auto).
    now destruct (Hno df).
Qed.

Lemma aspect_ratio_row_Ok self idx ar0 w ar w' :
  aspect_ratio_row self idx ar0 w = (Ok ar, w') ->
  exists rel img,
    series_get (self_image_path self) idx = Ok rel /\
    w_fs w !! os_path_join (self_data_dir self) rel = Some (FImage img) /\
    ar = <[idx := pil_size img]> ar0 /\ w' = w.
Proof.
  intros E. unfold aspect_ratio_row in E.
  apply bind_Ok in E as (rel & w2 & E1 & E).
  apply lift_inv in E1 as [E1 ->]. symmetry in E1.
  apply bind_Ok in E as (img & w3 & E2 & E).
  apply Image_open_Ok in E2 as [Himg ->].
  apply ret_inv in E as [Har ->]. injection Har as ->.
  exists rel, img. auto.
Qed.

(** The loop of the bucketing set-up records the size of the image file of
    every index of its range and no other key. *)
Lemma aspect_loop self :
  forall n k ar0 w ar w',
    for_each (map Z.of_nat (seq k n)) (aspect_ratio_row self) ar0 w = (Ok ar, w') ->
    w' = w /\
    (forall j, (k <= j < k + n)%nat ->
       exists rel img,
         self_image_path self !! j = Some rel /\
         w_fs w !! os_path_join (self_data_dir self) rel = Some (FImage img) /\
         ar !! Z.of_nat j = Some (pil_size img)) /\
    (forall key, (forall j, (k <= j < k + n)%nat -> key <> Z.of_nat j) ->
                 ar !! key = ar0 !! key).
Proof.
  induction n as [|n IH]; intros k ar0 w ar w' E.
  - simpl in E. apply ret_inv in E as [Har ->]. injection Har as ->.
    split; [reflexivity|]. split; [intros j Hj; lia|reflexivity].
  - simpl in E. apply bind_Ok in E as (ar1 & w1 & E1 & E).
    apply aspect_ratio_row_Ok in E1 as (rel & img & Hrel & Himg & -> & ->).
    destruct (IH _ _ _ _ _ E) as (-> & Hrows & Hframe).
    split; [reflexivity|]. split.
    + intros j Hj. destruct (decide (j = k)) as [->|Hne].
      * exists rel, img. apply series_get_Ok in Hrel as [_ Hrel].
        rewrite Nat2Z.id in Hrel. split; [exact Hrel|]. split; [exact Himg|].
        rewrite Hframe by (intros j Hj'; lia). apply lookup_insert_eq.
      * apply Hrows. lia.
    + intros key Hkey. rewrite Hframe by (intros j Hj; apply Hkey; lia).
      apply lookup_insert_ne. intros <-. apply (Hkey k); [lia|reflexivity].
Qed.

(** X9: with bucketing on, the bucket manager is built with the given batch
    size from a map that holds, for every row index, the size of the row's
    image file as opened (not resized), and no other key. *)
Theorem bucket_manager_gets_raw_image_sizes a w self w1 :
  __init__ a w = (Ok self, w1) ->
  a_aspect_ratio_bucketing a = true ->
  exists train_batch_size aspect_ratios,
    a_train_batch_size a = Some train_batch_size /\
    self_bucket_manager self
    = Some (BucketManager_new aspect_ratios train_batch_size) /\
    (forall i row,
       df_rows (self_data self) !! i = Some row ->
       exists img,
         w_fs w1 !! os_path_join (a_data_dir a) (row_image_path row)
         = Some (FImage img) /\
         aspect_ratios !! Z.of_nat i = Some (pil_size img)) /\
    (forall key, ~ (0 <= key < Z.of_nat (__len__ self)) -> aspect_ratios !! key = None).
Proof.
  intros E Hflag. unfold __init__ in E.
  apply bind_Ok in E as (df & w2 & _ & E).
  apply bind_Ok in E as ([] & w3 & _ & E).
  apply bind_Ok in E as (self1 & w4 & E3 & E).
  apply (eager_pass_Ok _ (a_vae_encoder a)) in E3
    as (lat & msk & -> & _); [|reflexivity].
  apply bind_Ok in E as ([] & w5 & E4 & E).
  rewrite log_event_run in E4. injection E4 as <-.
  apply bind_Ok in E as ([] & w6 & E5 & E).
  rewrite log_event_run in E5. injection E5 as <-.
  unfold setup_bucketing in E. rewrite Hflag in E.
  destruct (a_train_batch_size a) as [bsz|]; [|discriminate E].
  apply bind_Ok in E as (ar & w7 & Eloop & E).
  apply ret_inv in E as [Hs ->]. injection Hs as ->.
  unfold py_range in Eloop. apply aspect_loop in Eloop as (-> & Hrows & Hframe).
  exists bsz, ar. split; [reflexivity|]. split; [reflexivity|].
  unfold __len__ in *. simpl in *. split.
  - intros i row Hrow.
    destruct (Hrows i) as (rel & img & Hrel & Himg & Har).
    { apply lookup_lt_Some in Hrow. lia. }
    rewrite list_lookup_fmap, Hrow in Hrel. injection Hrel as <-.
    exists img. auto.
  - intros key Hkey. rewrite Hframe; [apply lookup_empty|].
    intros j Hj ->. lia.
Qed.

Lemma prefix_refl (s : string) : String.prefix s s = true.
Proof.
  induction s as [|c s IH]; [reflexivity|]. simpl.
  destruct (ascii_dec c c) as [_|Hne]; [exact IH|contradiction].
Qed.

Lemma replace_go_skip_all old new (s : string) :
  replace_go old new (String.length s) s = "".
Proof. induction s as [|c s IH]; [reflexivity|exact IH]. Qed.

Lemma append_empty_r (s : string) : s +:+ "" = s.
Proof.
  induction s as [|c s IH]; [reflexivity|].
  change (String c (s +:+ "") = String c s). now rewrite IH.
Qed.

Lemma str_replace_whole (old new : string) :
  old <> "" -> str_replace old new old = new.
Proof.
  destruct old as [|c old]; [contradiction|]. intros _.
  unfold str_replace.
  change (replace_go (String c old) new 0 (String c old))
    with (if String.prefix (String c old) (String c old)
          then new +:+ replace_go (String c old) new
                         (String.length (String c old) - 1)%nat old
          else String c (replace_go (String c old) new 0 old)).
  rewrite prefix_refl.
  replace (String.length (String c old) - 1)%nat with (String.length old)
    by (simpl; lia).
  rewrite replace_go_skip_all. apply append_empty_r.
Qed.

(** X11: with a one-entry map, a caption that equals the key up to case is
    stored as the value, written as in the map (not lower-cased). *)
Theorem caption_equal_to_key_becomes_value key value (raws : list (option string))
    (i : nat) caption :
  key <> "" ->
  raws !! i = Some (Some caption) ->
  str_lower key = str_lower caption ->
  prepare_captions [(key, value)] raws !! i = Some value.
Proof.
  intros Hkey Hraw Hsame.
  rewrite prepare_captions_spec, list_lookup_fmap, Hraw. simpl.
  rewrite <- Hsame. f_equal. apply str_replace_whole.
  destruct key; [contradiction|discriminate].
Qed.

Lemma prepare_mask_shape img w h :
  mask_library_contract ->
  exists h0 w0, t_shape (prepare_mask img w h) = [1; 1; h0; w0]%nat.
Proof.
  intros [Hnp _]. unfold prepare_mask.
  specialize (Hnp (pil_resize img w h)).
  destruct (np_array (pil_convert "L" (pil_resize img w h))) as [shape bytes].
  simpl in Hnp. destruct shape as [|h0 [|w0 [|x shape]]]; try discriminate Hnp.
  exists h0, w0. reflexivity.
Qed.

Lemma load_mask_shape self col idx dummy b c h w world m world' :
  mask_library_contract ->
  t_shape dummy = [b; c; h; w] ->
  load_mask self col idx dummy world = (Ok m, world') ->
  t_shape m = [1; c; h; w]%nat.
Proof.
  intros Hlib Hdummy E. unfold load_mask in E.
  apply bind_Ok in E as (mp & w1 & _ & E).
  apply bind_Ok in E as (path & w2 & _ & E).
  apply bind_Ok in E as (img & w3 & _ & E).
  apply bind_Ok in E as (sw & w4 & _ & E).
  apply bind_Ok in E as (sh & w5 & _ & E).
  apply bind_Ok in E as (enc & w6 & _ & E).
  apply bind_Ok in E as (h' & w7 & Eh & E).
  apply lift_inv in Eh as [Eh _].
  apply bind_Ok in E as (w' & w8 & Ew & E).
  apply lift_inv in Ew as [Ew _].
  apply bind_Ok in E as (c' & w9 & Ec & E).
  apply lift_inv in Ec as [Ec _].
  apply lift_inv in E as [E _].
  rewrite Hdummy in Eh, Ew, Ec.
  injection Eh as ->. injection Ew as ->. injection Ec as ->.
  destruct (prepare_mask_shape img sw sh Hlib) as (h0 & w0 & Hpm).
  destruct Hlib as [_ Hinterp].
  unfold repeat_channels in E. simpl t_shape in E.
  rewrite (Hinterp _ h w h0 w0) in E by exact Hpm.
  simpl in E. injection E as ->. simpl. now rewrite Nat.mul_1_r.
Qed.

(** X14: when _process succeeds, the draw is four-dimensional, [b; c; h; w],
    and the mask it returns is the squeezed [1; c; h; w] when read from a
    mask file and the squeezed [b; c; h; w] when made of ones. *)
Theorem process_mask_has_latent_dims self enc idx res w d m p w' :
  mask_library_contract ->
  self_vae_encoder self = Bound enc ->
  _process self idx res w = (Ok (d, m, p), w') ->
  exists b c h' w'',
    t_shape (fst (dist_sample d (w_rng w))) = [b; c; h'; w''] /\
    t_shape m = squeeze_shape [match self_mask_path self with
                               | Some _ => 1%nat
                               | None => b
                               end; c; h'; w''].
Proof.
  intros Hlib Henc E. unfold _process in E.
  apply bind_Ok in E as (rel & w1 & E1 & E).
  apply lift_inv in E1 as [_ ->].
  apply bind_Ok in E as (img & w2 & E2 & E).
  apply Image_open_Ok in E2 as [_ ->].
  apply bind_Ok in E as (image & w3 & E3 & E).
  assert (w3 = w) as ->.
  { destruct res as [r|].
    - now apply (prepare_image_to_dtype_Ok _ _ _ _ _ _ _ _ Henc) in E3.
    - apply bind_Ok in E3 as (sw & w4 & E4 & E3). apply lift_inv in E4 as [_ ->].
      apply bind_Ok in E3 as (sh & w5 & E5 & E3). apply lift_inv in E5 as [_ ->].
      now apply (prepare_image_to_dtype_Ok _ _ _ _ _ _ _ _ Henc) in E3. }
  apply bind_Ok in E as (e & w6 & E6 & E).
  apply (get_vae_encoder_Ok _ _ _ _ _ Henc) in E6 as [-> ->].
  apply bind_Ok in E as (vae_latent & w7 & E7 & E).
  unfold encode in E7. apply bind_Ok in E7 as ([] & w8 & E8 & E7).
  rewrite log_event_run in E8. injection E8 as <-.
  apply ret_inv in E7 as [Hv ->]. injection Hv as ->.
  apply bind_Ok in E as (dummy & w9 & E9 & E).
  rewrite sample_run in E9. injection E9 as <- <-. cbn [w_rng] in E.
  apply bind_Ok in E as (mask & w10 & E10 & E).
  apply bind_Ok in E as ([] & w11 & E11 & E).
  apply assert_Ok in E11 as [Hassert ->].
  apply ret_inv in E as [Hr ->]. injection Hr as -> -> ->.
  apply andb_prop in Hassert as [_ Hdummy]. apply Nat.eqb_eq in Hdummy.
  destruct (t_shape (fst (dist_sample (enc_encode enc image) (w_rng w))))
    as [|b [|c [|h' [|w'' [|x rest]]]]] eqn:Hshape; try discriminate Hdummy.
  exists b, c, h', w''. split; [reflexivity|].
  destruct (self_mask_path self) as [col|].
  - apply (load_mask_shape _ _ _ _ b c h' w'' _ _ _ Hlib Hshape) in E10.
    simpl. now rewrite E10.
  - apply bind_Ok in E10 as (e & w12 & E12 & E10).
    apply ret_inv in E10 as [Hm _]. injection Hm as ->.
    simpl. now rewrite Hshape.
Qed.

Lemma replace_go_absent old new (s : string) :
  occurs old s = false -> replace_go old new 0 s = s.
Proof.
  induction s as [|c s IH]; intros Hocc; [reflexivity|].
  change (occurs old (String c s))
    with (String.prefix old (String c s) || occurs old s) in Hocc.
  apply orb_false_elim in Hocc as [Hpre Hrest].
  change (replace_go old new 0 (String c s))
    with (if String.prefix old (String c s)
          then new +:+ replace_go old new (String.length old - 1)%nat s
          else String c (replace_go old new 0 s)).
  rewrite Hpre, (IH Hrest). reflexivity.
Qed.

(** X16: with a one-entry map and ASCII text, when the lower-cased key does
    not occur in the lower-cased caption, the stored caption is the
    lower-cased caption. *)
Theorem absent_key_leaves_caption_lowercased key value (raws : list (option string))
    (i : nat) caption :
  raws !! i = Some (Some caption) ->
  str_isascii key = true ->
  str_isascii caption = true ->
  occurs (str_lower key) (str_lower caption) = false ->
  prepare_captions [(key, value)] raws !! i = Some (str_lower caption).
Proof.
  intros Hraw _ _ Hocc.
  rewrite prepare_captions_spec, list_lookup_fmap, Hraw. simpl. f_equal.
  unfold str_replace. destruct (str_lower key) as [|c k] eqn:Hk.
  - destruct (str_lower caption); discriminate Hocc.
  - now apply replace_go_absent.
Qed.

End Further.

(** ** The further properties on the toy directory *)

Section FurtherToy.
#[local] Existing Instance toy_numeric.
#[local] Existing Instance toy_libs.

(** A run that succeeds, named. *)
Lemma run_ok {A} (m : Py A) (w : World) :
  is_ok (fst (m w)) = true -> exists x w', m w = (Ok x, w').
Proof. destruct (m w) as [[x|e] w']; [eauto|discriminate]. Defined.

(** X1 on the toy directory: the read at index -1. *)
Lemma out_of_range_read_witness :
  exists self w1,
    __init__ (toy_args false) (toy_world 2) = (Ok self, w1) /\
    is_ok (fst (__getitem__ self (-1) None w1)) = false.
Proof.
  destruct (toy_constructs false 2 ltac:(vm_compute; reflexivity)) as (self & w1 & E).
  exists self, w1. split; [exact E|].
  apply (out_of_range_read_fails _ _ _ _ E (-1) None w1). lia.
Defined.



(** X5 on the toy directory: two rows, so nothing is written. *)
Lemma construction_writes_nothing_witness :
  exists r w1,
    __init__ (toy_args false) (toy_world 2) = (r, w1) /\
    w_fs w1 = w_fs (toy_world 2).
Proof.
  destruct (__init__ (toy_args false) (toy_world 2)) as [r w1] eqn:E.
  exists r, w1. split; [reflexivity|].
  destruct (construction_writes_only_cache_files _ _ _ _ E) as [Hwith _].
  destruct (Hwith _ (toy_manifest false 2)) as [_ Hsmall].
  apply Hsmall. simpl. lia.
Defined.

(** X6 for the indices 0 and 1 under [data]. *)
Lemma cache_file_names_witness :
  latent_file "data" 0 <> latent_file "data" 1 /\
  mask_file "data" 0 <> mask_file "data" 1.
Proof.
  apply (proj1 (cache_file_names_distinct "data" 0 1)). lia.
Defined.

(** X7 on the toy directory. *)
Lemma bucketing_without_batch_size_witness :
  exists w1,
    __init__ (with_bucketing (toy_args false) true None) (toy_world 2)
    = (Err AssertionError, w1).
Proof.
  destruct (run_ok (__init__ (with_bucketing (toy_args false) false None)) (toy_world 2)
              ltac:(vm_compute; reflexivity)) as (self & w1 & E).
  exists w1.
  exact (proj2 (bucketing_without_batch_size_fails_late (toy_args false) (toy_world 2))
           self w1 E).
Defined.

(** X8 on the toy directory without rows. *)
Lemma empty_manifest_witness :
  exists self w1,
    __init__ (toy_args true) (toy_world 0) = (Ok self, w1) /\
    __len__ self = 0%nat /\
    __getitem__ self 0 None w1 = (Err IndexError, w1).
Proof.
  destruct (empty_manifest_constructs (toy_args true) (toy_world 0) false
              (toy_manifest true 0) ltac:(intros _; eexists; reflexivity))
    as (self & E & Hlen & _ & _ & _ & Hget).
  eexists self, _. split; [exact E|]. split; [exact Hlen|apply Hget].
Defined.

(** X9 on the toy directory, built with bucketing and batch size 2. *)
Lemma bucket_manager_witness :
  exists self w1 aspect_ratios,
    __init__ (toy_args true) (toy_world 2) = (Ok self, w1) /\
    self_bucket_manager self = Some (BucketManager_new aspect_ratios 2) /\
    aspect_ratios !! 2 = None.
Proof.
  destruct (toy_constructs true 2 ltac:(vm_compute; reflexivity)) as (self & w1 & E).
  destruct (bucket_manager_gets_raw_image_sizes _ _ _ _ E eq_refl)
    as (bsz & ar & Hbsz & Hbm & _ & Hout).
  injection Hbsz as <-.
  exists self, w1, ar. split; [exact E|]. split; [exact Hbm|].
  apply Hout. unfold __len__. rewrite (init_len _ _ _ _ _ E (toy_manifest true 2)).
  simpl. lia.
Defined.

(** X10 on the toy directory: row 1 read twice. *)
Lemma reads_are_repeatable_witness :
  exists self w1 caption mask latent w2 latent' w3,
    __init__ (toy_args false) (toy_world 2) = (Ok self, w1) /\
    __getitem__ self 1 None w1 = (Ok (caption, latent, mask), w2) /\
    __getitem__ self 1 (Some (16, 16)%nat) w2 = (Ok (caption, latent', mask), w3).
Proof.
  destruct (toy_constructs false 2 ltac:(vm_compute; reflexivity)) as (self & w1 & E).
  assert (Hlen : 0 <= 1 < Z.of_nat (__len__ self)).
  { unfold __len__. rewrite (init_len _ _ _ _ _ E (toy_manifest false 2)).
    simpl. lia. }
  destruct (__getitem__ self 1 None w1) as [r2 w2] eqn:E2.
  pose proof (proj1 (pure_getitem _ _ _ _ _ _ E2)) as Hfs.
  destruct (reads_are_repeatable _ _ _ _ 1 E Hlen None (Some (16, 16)%nat) w1 w2
              (or_intror (conj eq_refl Hfs)))
    as (caption & mask & latent & latent' & w2' & w3 & Hfirst & Hsecond & _).
  rewrite E2 in Hfirst. injection Hfirst as -> ->.
  exists self, w1, caption, mask, latent, w2', latent', w3.
  split; [exact E|]. split; [exact E2|exact Hsecond].
Defined.

(** X11: the key CAT, the caption Cat, the value Dog. *)
Lemma caption_equal_to_key_witness :
  prepare_captions [("CAT", "Dog")] [Some "Cat"] !! 0%nat = Some "Dog".
Proof.
  apply (caption_equal_to_key_becomes_value "CAT" "Dog" [Some "Cat"] 0 "Cat");
    [discriminate|reflexivity|reflexivity].
Defined.

(** X12 on a directory whose only row has no caption. *)
Lemma missing_caption_witness :
  exists self w1 latent mask w2,
    __init__ (toy_args false) toy_world_no_caption = (Ok self, w1) /\
    __getitem__ self 0 None w1 = (Ok ("", latent, mask), w2).
Proof.
  destruct (run_ok (__init__ (toy_args false)) toy_world_no_caption
              ltac:(vm_compute; reflexivity)) as (self & w1 & E).
  assert (Hdata : self_data self = mkFrame [mkRow "img0.png" None None] false)
    by (apply (init_len _ _ _ _ _ E); apply lookup_insert_eq).
  assert (Hrow : df_rows (self_data self) !! 0%nat = Some (mkRow "img0.png" None None))
    by now rewrite Hdata.
  destruct (missing_caption_is_served_empty _ _ _ _ 0%nat _ E Hrow eq_refl
              None w1 (or_intror eq_refl))
    as (latent & mask & w2 & Hget).
  exists self, w1, latent, mask, w2. split; [exact E|exact Hget].
Defined.

(** The toy libraries keep the contract of the mask branch. *)
Lemma toy_mask_library_contract : mask_library_contract.
Proof. split; intros; reflexivity. Defined.

(** X14 on the toy directory with a mask column: row 0, whose mask is read
    from a file. *)
Lemma process_mask_dims_witness :
  exists d m p w' b c h w,
    _process (init_self (toy_args false)
                (mkFrame [mkRow "img0.png" (Some "a") (Some "mask0.png");
                          mkRow "img1.png" (Some "b") None] true))
             0 None toy_world_masks = (Ok (d, m, p), w') /\
    t_shape (fst (dist_sample d (w_rng toy_world_masks))) = [b; c; h; w] /\
    t_shape m = squeeze_shape [1%nat; c; h; w].
Proof.
  destruct (run_ok (_process (init_self (toy_args false)
                (mkFrame [mkRow "img0.png" (Some "a") (Some "mask0.png");
                          mkRow "img1.png" (Some "b") None] true)) 0 None)
              toy_world_masks ltac:(vm_compute; reflexivity))
    as ([[d m] p] & w' & E).
  destruct (process_mask_has_latent_dims
              (init_self (toy_args false)
                 (mkFrame [mkRow "img0.png" (Some "a") (Some "mask0.png");
                           mkRow "img1.png" (Some "b") None] true))
              toy_encoder 0 None toy_world_masks d m p w'
              toy_mask_library_contract eq_refl E)
    as (b & c & h & w & Hdraw & Hmask).
  exists d, m, p, w', b, c, h, w. split; [exact E|]. split; [exact Hdraw|exact Hmask].
Defined.

(** X15 on the toy directory. *)
Lemma construction_needs_readable_rows_witness :
  exists self w1 img,
    __init__ (toy_args false) (toy_world 2) = (Ok self, w1) /\
    w_fs (toy_world 2) !! os_path_join "data" (row_image_path (toy_row 1))
    = Some (FImage img).
Proof.
  destruct (toy_constructs false 2 ltac:(vm_compute; reflexivity)) as (self & w1 & E).
  destruct (construction_needs_readable_rows _ _ _ _ E) as (df & Hcsv & _ & Hrows).
  rewrite (toy_manifest false 2) in Hcsv. injection Hcsv as <-.
  destruct (Hrows 1%nat (toy_row 1) eq_refl) as ((img & Himg) & _).
  exists self, w1, img. split; [exact E|exact Himg].
Defined.

(** X16: the key dog does not occur in a cat sat. *)
Lemma absent_key_witness :
  prepare_captions [("dog", "cow")] [Some "A CAT sat"] !! 0%nat = Some "a cat sat".
Proof.
  apply (absent_key_leaves_caption_lowercased "dog" "cow" [Some "A CAT sat"] 0
           "A CAT sat"); reflexivity.
Defined.

End FurtherToy.
